(** * Storefront client: cart store, catalog filter, product carousel and
      checkout form

    Shallow embedding of the client-side logic of the storefront
    ([src/App.tsx], the cart store, [ProductDetailModal.tsx],
    [CartCheckout.tsx] and the error paths of [AdminDashboard.tsx]) and the
    properties stated about it.

    Conventions of the embedding:
    - a JavaScript string is a [string]; its characters stand for UTF-16
      code units below 256 (the Latin-1 range), on which the built-ins
      [trim], [toLowerCase] and [includes] are modelled;
    - a JavaScript integer-valued [number] (quantities, indices) is a [Z];
      prices and ratings are rationals and are never inspected here;
    - React state is a record, an event handler is a function on it, and
      the handlers that also talk to the network or to the cart store run
      in a small state monad over a [World] that records what was sent. *)

From Stdlib Require Import List String Ascii ZArith Bool Lia QArith_base.
Import ListNotations.

Local Open Scope string_scope.
Local Open Scope Z_scope.
Local Open Scope list_scope.

(* ------------------------------------------------------------------ *)
(** ** JavaScript string built-ins *)

Module JsString.

(** ECMAScript WhiteSpace and LineTerminator code units below 256:
    TAB, LF, VT, FF, CR, SP and NBSP. *)
Definition isWhiteSpace (c : ascii) : bool :=
  match N_of_ascii c with
  | 9%N | 10%N | 11%N | 12%N | 13%N | 32%N | 160%N => true
  | _ => false
  end.

Fixpoint trimStart (s : string) : string :=
  match s with
  | EmptyString => EmptyString
  | String c r => if isWhiteSpace c then trimStart r else s
  end.

Fixpoint trimEnd (s : string) : string :=
  match s with
  | EmptyString => EmptyString
  | String c r =>
      match trimEnd r with
      | EmptyString => if isWhiteSpace c then EmptyString else String c EmptyString
      | r' => String c r'
      end
  end.

(** [String.prototype.trim] *)
Definition trim (s : string) : string := trimEnd (trimStart s).

(** Truthiness of a string: only the empty string is falsy. *)
Definition truthy (s : string) : bool :=
  match s with EmptyString => false | _ => true end.

(** A string that is empty or made of white space only. *)
Fixpoint blank (s : string) : bool :=
  match s with
  | EmptyString => true
  | String c r => isWhiteSpace c && blank r
  end.

(** Lower-casing of one code unit: A-Z and the accented capitals
    U+00C0..U+00DE (the multiplication sign U+00D7 excepted) move up
    by 32. *)
Definition lowerChar (c : ascii) : ascii :=
  let n := N_of_ascii c in
  if ((65 <=? n) && (n <=? 90))%N then ascii_of_N (n + 32)
  else if ((192 <=? n) && (n <=? 222) && negb (n =? 215))%N then ascii_of_N (n + 32)
  else c.

(** [String.prototype.toLowerCase] *)
Fixpoint toLowerCase (s : string) : string :=
  match s with
  | EmptyString => EmptyString
  | String c r => String (lowerChar c) (toLowerCase r)
  end.

Fixpoint startsWith (s q : string) : bool :=
  match q, s with
  | EmptyString, _ => true
  | String _ _, EmptyString => false
  | String b q', String a s' => Ascii.eqb a b && startsWith s' q'
  end.

(** [String.prototype.includes]: [q] occurs in [s] at some position. *)
Fixpoint includes (s q : string) : bool :=
  startsWith s q ||
  match s with
  | EmptyString => false
  | String _ s' => includes s' q
  end.

(** [q] is a substring of [s]. *)
Definition substring_of (q s : string) : Prop :=
  exists a b, s = (a ++ q ++ b)%string.

End JsString.

(* ------------------------------------------------------------------ *)
(** ** Products ([src/App.tsx]) *)

Record Product := {
  id : string;
  name : string;
  category : string;
  price : Q;
  description : string;
  rating : Q;
  reviews : Z;
  images : list string
}.

(* ------------------------------------------------------------------ *)
(** ** The cart store ([store/cartStore], zustand) *)

Module CartStore.

Record CartItem := {
  product : Product;
  quantity : Z
}.

Record CartState := {
  items : list CartItem;
  checkoutOpen : bool;
  confirmationMessage : option string
}.

(** The state [create] starts from. *)
Definition initial : CartState :=
  {| items := []; checkoutOpen := false; confirmationMessage := None |}.

(** [set({ items })]: zustand merges the partial state into the store. *)
Definition set_items (l : list CartItem) (state : CartState) : CartState :=
  {| items := l;
     checkoutOpen := checkoutOpen state;
     confirmationMessage := confirmationMessage state |}.

(** [{ ...item, quantity }] *)
Definition with_quantity (item : CartItem) (q : Z) : CartItem :=
  {| product := product item; quantity := q |}.

Definition addItem (p : Product) (state : CartState) : CartState :=
  let existing :=
    find (fun item => String.eqb (id (product item)) (id p)) (items state) in
  match existing with
  | Some _ =>
      set_items
        (map (fun item =>
                if String.eqb (id (product item)) (id p)
                then with_quantity item (quantity item + 1)
                else item)
             (items state))
        state
  | None =>
      set_items (items state ++ [{| product := p; quantity := 1 |}]) state
  end.

(** [productId] is annotated [number] in the store's type, but it is
    compared with [===] against [item.product.id] and every caller
    passes an [item.product.id]: it is a product identifier. *)
Definition updateQuantity (productId : string) (quantity' : Z)
    (state : CartState) : CartState :=
  set_items
    (filter (fun item => 0 <? quantity item)
       (map (fun item =>
               if String.eqb (id (product item)) productId
               then with_quantity item quantity'
               else item)
          (items state)))
    state.

Definition toggleCheckout (isOpen : bool) (state : CartState) : CartState :=
  {| items := items state;
     checkoutOpen := isOpen;
     confirmationMessage := confirmationMessage state |}.

Definition setConfirmationMessage (message : option string)
    (state : CartState) : CartState :=
  {| items := items state;
     checkoutOpen := checkoutOpen state;
     confirmationMessage := message |}.

Definition resetCart (state : CartState) : CartState := set_items [] state.

(** The product identifiers of the lines, in order. *)
Definition ids (l : list CartItem) : list string :=
  map (fun item => id (product item)) l.

(** The cart invariant: at most one line per product, quantities >= 1. *)
Definition cart_inv (l : list CartItem) : Prop :=
  NoDup (ids l) /\ Forall (fun item => 1 <= quantity item) l.

(** The callback both actions map over the lines: the lines of product
    [k] go through [g], the others are kept. *)
Definition bump (k : string) (g : CartItem -> CartItem) (item : CartItem) : CartItem :=
  if String.eqb (id (product item)) k then g item else item.

(** The cart has no line for product [k]. *)
Definition absent (k : string) (l : list CartItem) : Prop :=
  forall item, In item l -> id (product item) <> k.

(** The actions of the store. *)
Inductive Action :=
| AddItem (p : Product)
| UpdateQuantity (productId : string) (q : Z)
| ToggleCheckout (isOpen : bool)
| SetConfirmationMessage (message : option string)
| ResetCart.

Definition dispatch (a : Action) : CartState -> CartState :=
  match a with
  | AddItem p => addItem p
  | UpdateQuantity k q => updateQuantity k q
  | ToggleCheckout b => toggleCheckout b
  | SetConfirmationMessage m => setConfirmationMessage m
  | ResetCart => resetCart
  end.

(** States reached from the empty cart by finitely many actions. *)
Inductive reachable : CartState -> Prop :=
| reachable_initial : reachable initial
| reachable_dispatch a state :
    reachable state -> reachable (dispatch a state).

End CartStore.

(* ------------------------------------------------------------------ *)
(** ** The product detail overlay ([ProductDetailModal.tsx]) *)

Module ProductDetailModal.

(** Milliseconds between two automatic advances. *)
Definition AUTOPLAY_INTERVAL : Z := 4000.

Record Props := {
  product : option Product;
  isOpen : bool
}.

Record State := {
  activeIndex : Z;
  isAutoplaying : bool
}.

(** The values of the two [useState] hooks at mount. *)
Definition mounted : State := {| activeIndex := 0; isAutoplaying := true |}.

(** [product?.images || []] *)
Definition images_of (p : Props) : list string :=
  match product p with
  | Some pr => images pr
  | None => []
  end.

(** [images.length] *)
Definition images_length (p : Props) : Z := Z.of_nat (List.length (images_of p)).

(** First effect, run after mount and after every render in which
    [isOpen] changed. *)
Definition resetEffect (p : Props) (s : State) : State :=
  if isOpen p then {| activeIndex := 0; isAutoplaying := true |} else s.

(** Second effect: the interval exists unless the effect returned
    early; its cleanup clears it whenever a dependency changes. *)
Definition timerRunning (p : Props) (s : State) : bool :=
  negb (negb (isOpen p) || negb (isAutoplaying s) || (images_length p <=? 1)).

(** The interval's callback. [%] on numbers is the truncated remainder. *)
Definition tick (p : Props) (s : State) : State :=
  {| activeIndex := Z.rem (activeIndex s + 1) (images_length p);
     isAutoplaying := isAutoplaying s |}.

Definition goToSlide (index : Z) (s : State) : State :=
  {| activeIndex := index; isAutoplaying := false |}.

Definition nextSlide (p : Props) (s : State) : State :=
  {| activeIndex := Z.rem (activeIndex s + 1) (images_length p);
     isAutoplaying := false |}.

Definition prevSlide (p : Props) (s : State) : State :=
  {| activeIndex :=
       if activeIndex s =? 0 then images_length p - 1 else activeIndex s - 1;
     isAutoplaying := false |}.

(** The pause/play button. *)
Definition toggleAutoplay (s : State) : State :=
  {| activeIndex := activeIndex s; isAutoplaying := negb (isAutoplaying s) |}.

(** The component renders nothing unless it is open with a product; the
    three carousel buttons are rendered only for more than one image. *)
Definition rendered (p : Props) : bool :=
  negb (negb (isOpen p) || match product p with Some _ => false | None => true end).

Definition controlsShown (p : Props) : bool :=
  rendered p && (1 <? images_length p).

(** The mounted component: the props of its last render and its state. *)
Record Modal := {
  props : Props;
  state : State
}.

Inductive Event :=
| Render (p : Props)      (* the parent renders it with new props *)
| Tick                    (* the interval fires *)
| ClickNext
| ClickPrev
| ClickToggle.

(** What an event does; [None] when it cannot occur in that state (no
    interval installed, button not rendered). *)
Definition handle (e : Event) (m : Modal) : option Modal :=
  match e with
  | Render p =>
      Some {| props := p;
              state := if Bool.eqb (isOpen p) (isOpen (props m))
                       then state m
                       else resetEffect p (state m) |}
  | Tick =>
      if timerRunning (props m) (state m)
      then Some {| props := props m; state := tick (props m) (state m) |}
      else None
  | ClickNext =>
      if controlsShown (props m)
      then Some {| props := props m; state := nextSlide (props m) (state m) |}
      else None
  | ClickPrev =>
      if controlsShown (props m)
      then Some {| props := props m; state := prevSlide (props m) (state m) |}
      else None
  | ClickToggle =>
      if controlsShown (props m)
      then Some {| props := props m; state := toggleAutoplay (state m) |}
      else None
  end.

(** Runs a sequence of events and lists the active index after each. *)
Fixpoint indices (es : list Event) (m : Modal) : option (list Z) :=
  match es with
  | [] => Some []
  | e :: es' =>
      match handle e m with
      | None => None
      | Some m' =>
          match indices es' m' with
          | None => None
          | Some l => Some (activeIndex (state m') :: l)
          end
      end
  end.

End ProductDetailModal.

(* ------------------------------------------------------------------ *)
(** ** What an axios call can come back with *)

Module Axios.

Record Data := { message : option string }.

Record Response := {
  status : Z;
  data : option Data
}.

(** The error a call throws: without [response] when the network
    failed, with the backend's response on a status outside 2xx. *)
Record AxiosError := { response : option Response }.

Inductive Reply :=
| Fulfilled
| Thrown (err : AxiosError).

(** [err.response?.data?.message] *)
Definition response_data_message (err : AxiosError) : option string :=
  match response err with
  | None => None
  | Some r => match data r with
              | None => None
              | Some d => message d
              end
  end.

(** [v || fallback] for a string or undefined [v]. *)
Definition or_else (v : option string) (fallback : string) : string :=
  match v with
  | Some s => if JsString.truthy s then s else fallback
  | None => fallback
  end.

End Axios.

(* ------------------------------------------------------------------ *)
(** ** The checkout form ([CartCheckout.tsx]) *)

Module CheckoutDetails.
Record t := {
  fullName : string;
  phone : string;
  address : string;
  size : string
}.
End CheckoutDetails.

Module OrderBody.
Record item := {
  productId : string;
  quantity : Z
}.
Record t := {
  fullName : string;
  phone : string;
  address : string;
  size : string;
  items : list item
}.
End OrderBody.

Module CartCheckout.

Import JsString.

Definition sizes : list string := ["XS"; "S"; "M"; "L"; "XL"].

(** [sizes[2]] *)
Definition defaultSize : string := nth 2 sizes "".

(** The six [useState] hooks of the component. *)
Record Form := {
  fullName : string;
  phone : string;
  address : string;
  size : string;
  error : option string;
  submitting : bool
}.

Definition mounted : Form :=
  {| fullName := ""; phone := ""; address := ""; size := defaultSize;
     error := None; submitting := false |}.

(** What the handler does to the outside. *)
Inductive Effect :=
| Post (url : string) (body : OrderBody.t)
| OnSubmitOrder (details : CheckoutDetails.t)
| ConsoleError (label : string) (err : Axios.AxiosError).

(** The form, the cart store behind the props, and the effects so far
    (latest last). *)
Record World := {
  form : Form;
  store : CartStore.CartState;
  effects : list Effect
}.

(** The [onSubmitOrder] prop: whatever the caller does to the store. *)
Definition Callback : Type :=
  CheckoutDetails.t -> CartStore.CartState -> CartStore.CartState.

Definition M (A : Type) : Type := World -> A * World.

Definition ret {A} (a : A) : M A := fun w => (a, w).

Definition bind {A B} (m : M A) (k : A -> M B) : M B :=
  fun w => let (a, w') := m w in k a w'.

Declare Scope checkout_scope.
Delimit Scope checkout_scope with checkout.
Notation "x <- m ;; k" := (bind m (fun x => k))
  (at level 61, m at next level, right associativity) : checkout_scope.
Notation "m ;; k" := (bind m (fun _ => k))
  (at level 61, right associativity) : checkout_scope.
Local Open Scope checkout_scope.

Definition exec {A} (m : M A) (w : World) : World := snd (m w).

Definition getForm : M Form := fun w => (form w, w).

(** The [items] prop is the store's list. *)
Definition getItems : M (list CartStore.CartItem) :=
  fun w => (CartStore.items (store w), w).

Definition modifyForm (g : Form -> Form) : M unit :=
  fun w => (tt, {| form := g (form w); store := store w; effects := effects w |}).

Definition emit (e : Effect) : M unit :=
  fun w => (tt, {| form := form w; store := store w; effects := effects w ++ [e] |}).

Definition setFullName (v : string) : M unit :=
  modifyForm (fun f =>
    {| fullName := v; phone := phone f; address := address f; size := size f;
       error := error f; submitting := submitting f |}).

Definition setPhone (v : string) : M unit :=
  modifyForm (fun f =>
    {| fullName := fullName f; phone := v; address := address f; size := size f;
       error := error f; submitting := submitting f |}).

Definition setAddress (v : string) : M unit :=
  modifyForm (fun f =>
    {| fullName := fullName f; phone := phone f; address := v; size := size f;
       error := error f; submitting := submitting f |}).

Definition setSize (v : string) : M unit :=
  modifyForm (fun f =>
    {| fullName := fullName f; phone := phone f; address := address f; size := v;
       error := error f; submitting := submitting f |}).

Definition setError (v : option string) : M unit :=
  modifyForm (fun f =>
    {| fullName := fullName f; phone := phone f; address := address f;
       size := size f; error := v; submitting := submitting f |}).

Definition setSubmitting (v : bool) : M unit :=
  modifyForm (fun f =>
    {| fullName := fullName f; phone := phone f; address := address f;
       size := size f; error := error f; submitting := v |}).

(** Calling the prop: the call is recorded and the caller's code runs
    on the store. *)
Definition call (onSubmitOrder : Callback) (details : CheckoutDetails.t) : M unit :=
  fun w => (tt, {| form := form w;
                   store := onSubmitOrder details (store w);
                   effects := effects w ++ [OnSubmitOrder details] |}).

(** What the running handler still sees after the [await]: the values
    of the render it was created in. *)
Record Closure := {
  seen : Form;
  seenItems : list CartStore.CartItem
}.

Definition orders_url : string := "http://localhost:5000/api/orders".

Definition validation_message : string :=
  "Please fill in all required details before submitting.".

Definition failure_message : string :=
  "Failed to submit order. Please try again.".

(** The entry guard of [handleSubmit]. *)
Definition missing (f : Form) : bool :=
  negb (truthy (trim (fullName f))) || negb (truthy (trim (phone f)))
  || negb (truthy (trim (address f))) || negb (truthy (trim (size f))).

(** [handleSubmit] up to its [await]: [None] when it returned at the
    guard, otherwise the request is out and the handler is suspended. *)
Definition handleSubmit_begin : M (option Closure) :=
  f <- getForm ;;
  items <- getItems ;;
  if missing f then
    setError (Some validation_message) ;;
    ret None
  else
    setError None ;;
    setSubmitting true ;;
    let orderItems :=
      map (fun item =>
             {| OrderBody.productId := id (CartStore.product item);
                OrderBody.quantity := CartStore.quantity item |}) items in
    emit (Post orders_url
            {| OrderBody.fullName := trim (fullName f);
               OrderBody.phone := trim (phone f);
               OrderBody.address := trim (address f);
               OrderBody.size := size f;
               OrderBody.items := orderItems |}) ;;
    ret (Some {| seen := f; seenItems := items |}).

(** [handleSubmit] from the [await] on: the rest of the [try] block
    when the call is fulfilled, the [catch] block when it threw, and
    the [finally] block in both cases. *)
Definition handleSubmit_resume (onSubmitOrder : Callback) (c : Closure)
    (reply : Axios.Reply) : M unit :=
  match reply with
  | Axios.Fulfilled =>
      (* Show success message *)
      call onSubmitOrder
        {| CheckoutDetails.fullName := trim (fullName (seen c));
           CheckoutDetails.phone := trim (phone (seen c));
           CheckoutDetails.address := trim (address (seen c));
           CheckoutDetails.size := size (seen c) |} ;;
      (* Reset form *)
      setFullName "" ;;
      setPhone "" ;;
      setAddress "" ;;
      setSize defaultSize
  | Axios.Thrown err =>
      emit (ConsoleError "Order submission error:" err) ;;
      setError (Some failure_message)
  end ;;
  setSubmitting false.

(** A whole submission, given what the backend call comes back with. *)
Definition handleSubmit (onSubmitOrder : Callback) (reply : Axios.Reply) : M unit :=
  c <- handleSubmit_begin ;;
  match c with
  | None => ret tt
  | Some c => handleSubmit_resume onSubmitOrder c reply
  end.

(** The details the suspended handler hands to [onSubmitOrder]. *)
Definition details_of (f : Form) : CheckoutDetails.t :=
  {| CheckoutDetails.fullName := trim (fullName f);
     CheckoutDetails.phone := trim (phone f);
     CheckoutDetails.address := trim (address f);
     CheckoutDetails.size := size f |}.

(** The body of the request a form is submitted with. *)
Definition body_of (f : Form) (items : list CartStore.CartItem) : OrderBody.t :=
  {| OrderBody.fullName := trim (fullName f);
     OrderBody.phone := trim (phone f);
     OrderBody.address := trim (address f);
     OrderBody.size := size f;
     OrderBody.items :=
       map (fun item =>
              {| OrderBody.productId := id (CartStore.product item);
                 OrderBody.quantity := CartStore.quantity item |}) items |}.

(** [items.length > 0] *)
Definition hasItems (w : World) : bool :=
  match CartStore.items (store w) with [] => false | _ => true end.

(** The requests sent so far. *)
Definition posts (w : World) : list OrderBody.t :=
  flat_map (fun e => match e with Post _ b => [b] | _ => [] end) (effects w).

(** A text that is not empty and has no white space around it. *)
Definition trimmed (s : string) : Prop := s <> "" /\ trim s = s.

(** An order a backend can fill: who it is for, in a listed size, and
    at least one line, one line per product, each of one piece or more. *)
Definition wellFormed (b : OrderBody.t) : Prop :=
  trimmed (OrderBody.fullName b) /\ trimmed (OrderBody.phone b)
  /\ trimmed (OrderBody.address b)
  /\ In (OrderBody.size b) sizes
  /\ OrderBody.items b <> []
  /\ NoDup (map OrderBody.productId (OrderBody.items b))
  /\ Forall (fun i => 1 <= OrderBody.quantity i) (OrderBody.items b).

End CartCheckout.

(* ------------------------------------------------------------------ *)
(** ** The storefront page ([Store] in [App.tsx]) *)

Module Store.

Import JsString.

Definition categories : list string :=
  ["All"; "New Arrivals"; "Wardrobe Staples"; "Statement Pieces";
   "Streetwear"; "Evening Luxe"].

(** The [useMemo] that derives the cards shown. *)
Definition filteredProducts (products : list Product)
    (activeCategory searchTerm : string) : list Product :=
  let query := toLowerCase (trim searchTerm) in
  filter (fun product =>
            let matchesCategory :=
              String.eqb activeCategory "All"
              || String.eqb (category product) activeCategory in
            let matchesQuery :=
              negb (truthy query)
              || includes (toLowerCase (name product)) query
              || includes (toLowerCase (description product)) query in
            matchesCategory && matchesQuery)
         products.

(** The callback [filteredProducts] filters with. *)
Definition keeps (activeCategory searchTerm : string) (product : Product) : bool :=
  (String.eqb activeCategory "All" || String.eqb (category product) activeCategory)
  && (negb (truthy (toLowerCase (trim searchTerm)))
      || includes (toLowerCase (name product)) (toLowerCase (trim searchTerm))
      || includes (toLowerCase (description product)) (toLowerCase (trim searchTerm))).

(** [q] occurs in [s] when case is ignored. *)
Definition occurs_ignoring_case (q s : string) : Prop :=
  substring_of (toLowerCase q) (toLowerCase s).

(** The filter as the specification words it: the category is selected
    and the trimmed search term is found in the name or description. *)
Definition shown (activeCategory searchTerm : string) (p : Product) : Prop :=
  (activeCategory = "All" \/ category p = activeCategory)
  /\ (trim searchTerm = ""
      \/ occurs_ignoring_case (trim searchTerm) (name p)
      \/ occurs_ignoring_case (trim searchTerm) (description p)).

Definition handleAddToCart (p : Product)
    (s : CartStore.CartState) : CartStore.CartState :=
  CartStore.setConfirmationMessage None
    (CartStore.toggleCheckout true (CartStore.addItem p s)).

(** The [onSubmitOrder] prop the page passes to the checkout: an arrow
    function whose body is a comment. *)
Definition onSubmitOrder : CartCheckout.Callback := fun _details s => s.

(** The page: the checkout form with the store behind it, and the
    submission that is waiting for the backend, if any. *)
Record Page := {
  world : CartCheckout.World;
  pending : option CartCheckout.Closure
}.

Definition loaded : Page :=
  {| world := {| CartCheckout.form := CartCheckout.mounted;
                 CartCheckout.store := CartStore.initial;
                 CartCheckout.effects := [] |};
     pending := None |}.

(** The three buttons of a cart row. *)
Inductive RowButton := Minus | Plus | Remove.

Inductive Event :=
| AddToCart (p : Product)           (* "Add" on a card or in the overlay *)
| OpenCart                          (* the cart button of the header *)
| CloseCart
| Row (n : nat) (b : RowButton)     (* a button of the n-th cart row *)
| ChangeFullName (v : string)
| ChangePhone (v : string)
| ChangeAddress (v : string)
| ChangeSize (v : string)           (* an option of the select *)
| Submit
| Settle (reply : Axios.Reply).     (* the pending call comes back *)

Definition onStore (g : CartStore.CartState -> CartStore.CartState)
    (pg : Page) : Page :=
  {| world := {| CartCheckout.form := CartCheckout.form (world pg);
                 CartCheckout.store := g (CartCheckout.store (world pg));
                 CartCheckout.effects := CartCheckout.effects (world pg) |};
     pending := pending pg |}.

Definition onForm (m : CartCheckout.M unit) (pg : Page) : Page :=
  {| world := CartCheckout.exec m (world pg); pending := pending pg |}.

(** The checkout is rendered and its inputs are enabled. *)
Definition editable (pg : Page) : bool :=
  CartStore.checkoutOpen (CartCheckout.store (world pg))
  && negb (CartCheckout.submitting (CartCheckout.form (world pg))).

Definition rowClick (item : CartStore.CartItem) (b : RowButton)
    : CartStore.CartState -> CartStore.CartState :=
  let k := id (CartStore.product item) in
  match b with
  | Minus => CartStore.updateQuantity k (Z.max 1 (CartStore.quantity item - 1))
  | Plus => CartStore.updateQuantity k (CartStore.quantity item + 1)
  | Remove => CartStore.updateQuantity k 0
  end.

(** What an event does to the page; [None] when the control it comes
    from is absent or disabled. *)
Definition handle (e : Event) (pg : Page) : option Page :=
  let st := CartCheckout.store (world pg) in
  match e with
  | AddToCart p => Some (onStore (handleAddToCart p) pg)
  | OpenCart => Some (onStore (CartStore.toggleCheckout true) pg)
  | CloseCart =>
      if CartStore.checkoutOpen st
      then Some (onStore (CartStore.toggleCheckout false) pg)
      else None
  | Row n b =>
      if CartStore.checkoutOpen st then
        match nth_error (CartStore.items st) n with
        | Some item => Some (onStore (rowClick item b) pg)
        | None => None
        end
      else None
  | ChangeFullName v =>
      if editable pg then Some (onForm (CartCheckout.setFullName v) pg) else None
  | ChangePhone v =>
      if editable pg then Some (onForm (CartCheckout.setPhone v) pg) else None
  | ChangeAddress v =>
      if editable pg then Some (onForm (CartCheckout.setAddress v) pg) else None
  | ChangeSize v =>
      if editable pg && existsb (String.eqb v) CartCheckout.sizes
      then Some (onForm (CartCheckout.setSize v) pg) else None
  | Submit =>
      if editable pg && CartCheckout.hasItems (world pg) then
        let (c, w) := CartCheckout.handleSubmit_begin (world pg) in
        Some {| world := w; pending := c |}
      else None
  | Settle reply =>
      match pending pg with
      | Some c =>
          Some {| world :=
                    CartCheckout.exec
                      (CartCheckout.handleSubmit_resume onSubmitOrder c reply)
                      (world pg);
                  pending := None |}
      | None => None
      end
  end.

(** Pages reached from the freshly loaded one. *)
Inductive reachable : Page -> Prop :=
| reachable_loaded : reachable loaded
| reachable_step e pg pg' :
    reachable pg -> handle e pg = Some pg' -> reachable pg'.

(** Runs a sequence of events, stopping at the first that cannot occur. *)
Fixpoint run (es : list Event) (pg : Page) : option Page :=
  match es with
  | [] => Some pg
  | e :: es' =>
      match handle e pg with
      | Some pg' => run es' pg'
      | None => None
      end
  end.

(** A submission is turned down at the guard. *)
Definition rejected (pg : Page) : Prop :=
  fst (CartCheckout.handleSubmit_begin (world pg)) = None.

(** The number on the cart button of the header:
    [items.reduce((count, item) => count + item.quantity, 0)]. *)
Definition cartCount (items : list CartStore.CartItem) : Z :=
  fold_left (fun count item => count + CartStore.quantity item) items 0.

End Store.

(* ------------------------------------------------------------------ *)
(** ** Error paths of the admin dashboard ([AdminDashboard.tsx]) *)

Module AdminDashboard.

(** The two hooks [handleAddProduct] leaves through its [catch] and
    [finally] blocks. *)
Record State := {
  error : string;
  isAdding : bool
}.

(** [catch] and [finally] of [handleAddProduct]. *)
Definition handleAddProduct_catch (err : Axios.AxiosError) (s : State) : State :=
  {| error := Axios.or_else (Axios.response_data_message err) "Failed to add product";
     isAdding := false |}.

End AdminDashboard.

(* ------------------------------------------------------------------ *)
(** ** Sample data *)

Module Samples.

Definition jacket : Product :=
  {| id := "p1"; name := "Denim Jacket"; category := "Streetwear";
     price := Qmake 40 1; description := "Boxy cut, washed blue";
     rating := Qmake 9 2; reviews := 12;
     images := ["/a.jpg"; "/b.jpg"; "/c.jpg"] |}.

Definition gown : Product :=
  {| id := "p2"; name := "Silk Gown"; category := "Evening Luxe";
     price := Qmake 15 1; description := "Worn with a cropped JACKET";
     rating := Qmake 4 1; reviews := 3;
     images := ["/g.jpg"] |}.

Definition hoodie : Product :=
  {| id := "p3"; name := "Hoodie"; category := "Streetwear";
     price := Qmake 25 1; description := "Heavy fleece";
     rating := Qmake 0 1; reviews := 0;
     images := [] |}.

(** A cart with two lines. *)
Definition cart : CartStore.CartState :=
  {| CartStore.items :=
       [ {| CartStore.product := jacket; CartStore.quantity := 2 |};
         {| CartStore.product := gown; CartStore.quantity := 1 |} ];
     CartStore.checkoutOpen := true;
     CartStore.confirmationMessage := None |}.

(** A form filled in by hand, with white space around the name. *)
Definition filledForm : CartCheckout.Form :=
  {| CartCheckout.fullName := " Ada Lovelace ";
     CartCheckout.phone := "555 0100";
     CartCheckout.address := "12 Mill Lane";
     CartCheckout.size := "L";
     CartCheckout.error := None;
     CartCheckout.submitting := false |}.

(** The checkout, open on the sample cart, with that form. *)
Definition filled : CartCheckout.World :=
  {| CartCheckout.form := filledForm;
     CartCheckout.store := cart;
     CartCheckout.effects := [] |}.

(** The same with nothing but spaces as the phone number. *)
Definition spaced : CartCheckout.World :=
  {| CartCheckout.form :=
       {| CartCheckout.fullName := "Ada"; CartCheckout.phone := "   ";
          CartCheckout.address := "12 Mill Lane"; CartCheckout.size := "L";
          CartCheckout.error := None; CartCheckout.submitting := false |};
     CartCheckout.store := cart;
     CartCheckout.effects := [] |}.

(** The backend turns the order down with a message of its own. *)
Definition outOfStock : Axios.AxiosError :=
  {| Axios.response :=
       Some {| Axios.status := 409;
               Axios.data := Some {| Axios.message := Some "Out of stock" |} |} |}.

(** The request never reached the backend. *)
Definition networkDown : Axios.AxiosError := {| Axios.response := None |}.

End Samples.

(* ================================================================== *)
(** * Properties *)

(* ------------------------------------------------------------------ *)
(** ** Strings *)

Section StringFacts.

Import JsString.

Lemma trimEnd_blank s : blank s = true -> trimEnd s = "".
Proof.
  induction s as [|c r IH]; simpl; [reflexivity|].
  intros H. apply andb_true_iff in H as [Hc Hr].
  rewrite (IH Hr), Hc. reflexivity.
Qed.

Lemma trimEnd_empty s : trimEnd s = "" -> blank s = true.
Proof.
  induction s as [|c r IH]; simpl; [reflexivity|].
  destruct (trimEnd r) eqn:E.
  - destruct (isWhiteSpace c); [intros _; now rewrite IH | discriminate].
  - discriminate.
Qed.

Lemma trimStart_blank s : blank (trimStart s) = blank s.
Proof.
  induction s as [|c r IH]; simpl; [reflexivity|].
  destruct (isWhiteSpace c) eqn:E; simpl; [assumption | now rewrite E].
Qed.

(** [trim] returns the empty string exactly on blank strings. *)
Lemma trim_empty_iff s : trim s = "" <-> blank s = true.
Proof.
  unfold trim. split; intros H.
  - rewrite <- trimStart_blank. now apply trimEnd_empty.
  - apply trimEnd_blank. now rewrite trimStart_blank.
Qed.

Lemma truthy_false_iff s : truthy s = false <-> s = "".
Proof. destruct s; simpl; split; congruence. Qed.

Lemma toLowerCase_empty_iff s : toLowerCase s = "" <-> s = "".
Proof. destruct s; simpl; split; congruence. Qed.

Lemma startsWith_iff s q : startsWith s q = true <-> exists b, s = (q ++ b)%string.
Proof.
  revert s; induction q as [|c q IH]; intros s; simpl.
  - destruct s; split; eauto.
  - destruct s as [|a s]; simpl.
    + split; [discriminate | intros [b Hb]; discriminate].
    + rewrite andb_true_iff, IH. split.
      * intros [Hc [b ->]]. apply Ascii.eqb_eq in Hc. subst. eauto.
      * intros [b Hb]. injection Hb as -> ->. split; [apply Ascii.eqb_refl | eauto].
Qed.

Lemma includes_iff s q : includes s q = true <-> substring_of q s.
Proof.
  unfold substring_of. induction s as [|c s IH].
  - cbn [includes]. rewrite orb_false_r, startsWith_iff. split.
    + intros [b Hb]. exists "", b. exact Hb.
    + intros [a [b H]]. destruct a; [eauto | discriminate].
  - cbn [includes]. rewrite orb_true_iff, startsWith_iff, IH. split.
    + intros [[b Hb] | [a [b Hab]]].
      * exists "", b. exact Hb.
      * exists (String c a), b. simpl. now rewrite Hab.
    + intros [a [b H]]. destruct a as [|c' a].
      * left. exists b. exact H.
      * right. simpl in H. injection H as _ H. eauto.
Qed.

End StringFacts.

(* ------------------------------------------------------------------ *)
(** ** The cart store *)

Section CartFacts.

Import CartStore.

Lemma absent_app k l1 l2 : absent k (l1 ++ l2) <-> absent k l1 /\ absent k l2.
Proof.
  unfold absent. split.
  - intros H. split; intros item Hin; apply H, in_or_app; auto.
  - intros [H1 H2] item Hin. apply in_app_or in Hin as [Hin | Hin]; auto.
Qed.

Lemma absent_not_in k l : absent k l <-> ~ In k (ids l).
Proof.
  unfold absent, ids. rewrite in_map_iff. split.
  - intros H [item [Hk Hin]]. exact (H item Hin Hk).
  - intros H item Hin Hk. apply H. eauto.
Qed.

Lemma find_absent k l :
  absent k l -> find (fun item => String.eqb (id (product item)) k) l = None.
Proof.
  induction l as [|x l IH]; intros H; simpl; [reflexivity|].
  destruct (String.eqb_spec (id (product x)) k) as [E | _].
  - exfalso. apply (H x); [now left | exact E].
  - apply IH. intros item Hin. apply H. now right.
Qed.

Lemma find_present k l1 x l2 :
  id (product x) = k ->
  find (fun item => String.eqb (id (product item)) k) (l1 ++ x :: l2) <> None.
Proof.
  intros Hk. induction l1 as [|y l1 IH]; simpl.
  - rewrite Hk, String.eqb_refl. discriminate.
  - destruct (String.eqb (id (product y)) k); [discriminate | exact IH].
Qed.

Lemma map_bump_absent k g l : absent k l -> map (bump k g) l = l.
Proof.
  induction l as [|x l IH]; intros H; simpl; [reflexivity|].
  unfold bump at 1.
  destruct (String.eqb_spec (id (product x)) k) as [E | _].
  - exfalso. apply (H x); [now left | exact E].
  - f_equal. apply IH. intros item Hin. apply H. now right.
Qed.

Lemma map_bump_split k g l1 x l2 :
  id (product x) = k -> absent k l1 -> absent k l2 ->
  map (bump k g) (l1 ++ x :: l2) = l1 ++ g x :: l2.
Proof.
  intros Hk H1 H2. rewrite map_app. simpl.
  rewrite (map_bump_absent k g l1 H1), (map_bump_absent k g l2 H2).
  unfold bump. now rewrite Hk, String.eqb_refl.
Qed.

Lemma ids_app l1 l2 : ids (l1 ++ l2) = ids l1 ++ ids l2.
Proof. apply map_app. Qed.

(** In a cart without duplicates the line of a product is alone. *)
Lemma NoDup_ids_split l1 x l2 :
  NoDup (ids (l1 ++ x :: l2)) ->
  absent (id (product x)) l1 /\ absent (id (product x)) l2.
Proof.
  rewrite ids_app. simpl. intros H.
  apply NoDup_remove_2 in H. rewrite <- ids_app in H.
  apply absent_not_in in H. now apply absent_app in H.
Qed.

Lemma filter_positive l :
  Forall (fun item => 1 <= quantity item) l ->
  filter (fun item => 0 <? quantity item) l = l.
Proof.
  induction 1 as [|x l Hx _ IH]; simpl; [reflexivity|].
  replace (0 <? quantity x) with true by (symmetry; apply Z.ltb_lt; lia).
  now rewrite IH.
Qed.

Lemma cart_inv_app l1 l2 : cart_inv (l1 ++ l2) -> cart_inv l1 /\ cart_inv l2.
Proof.
  unfold cart_inv. rewrite ids_app, Forall_app. intros [Hn [H1 H2]].
  repeat split; auto.
  - now apply NoDup_app_remove_r in Hn.
  - now apply NoDup_app_remove_l in Hn.
Qed.

Lemma addItem_items p s :
  items (addItem p s) =
  match find (fun item => String.eqb (id (product item)) (id p)) (items s) with
  | Some _ => map (bump (id p) (fun item => with_quantity item (quantity item + 1))) (items s)
  | None => items s ++ [{| product := p; quantity := 1 |}]
  end.
Proof. unfold addItem. destruct (find _ (items s)); reflexivity. Qed.

Lemma updateQuantity_items k q s :
  items (updateQuantity k q s) =
  filter (fun item => 0 <? quantity item)
    (map (bump k (fun item => with_quantity item q)) (items s)).
Proof. reflexivity. Qed.

Lemma addItem_present p s l1 x l2 :
  cart_inv (items s) -> items s = l1 ++ x :: l2 -> id (product x) = id p ->
  items (addItem p s) = l1 ++ with_quantity x (quantity x + 1) :: l2.
Proof.
  intros [Hn _] Hs Hk. rewrite Hs in Hn.
  destruct (NoDup_ids_split _ _ _ Hn) as [H1 H2]. rewrite Hk in H1, H2.
  rewrite addItem_items, Hs.
  destruct (find _ (l1 ++ x :: l2)) eqn:E.
  - now apply map_bump_split.
  - exfalso. revert E. now apply find_present.
Qed.

Lemma addItem_absent p s :
  absent (id p) (items s) ->
  items (addItem p s) = items s ++ [{| product := p; quantity := 1 |}].
Proof. intros H. now rewrite addItem_items, find_absent. Qed.

(** C1. In a cart that satisfies the invariant, [addItem p] adds 1 to
    the quantity of the line of [p.id] when there is one, keeping the
    order and every other line, and otherwise appends the line [(p, 1)]
    at the end; adding a product that is not in the cart twice gives one
    line of quantity 2 at the end, not two lines. Nothing but the lines
    changes. *)
Theorem addItem_spec (p : Product) (s : CartState) :
  cart_inv (items s) ->
  (forall l1 x l2,
      items s = l1 ++ x :: l2 -> id (product x) = id p ->
      items (addItem p s)
      = l1 ++ {| product := product x; quantity := quantity x + 1 |} :: l2)
  /\ (absent (id p) (items s) ->
      items (addItem p s) = items s ++ [{| product := p; quantity := 1 |}]
      /\ items (addItem p (addItem p s))
         = items s ++ [{| product := p; quantity := 2 |}])
  /\ checkoutOpen (addItem p s) = checkoutOpen s
  /\ confirmationMessage (addItem p s) = confirmationMessage s.
Proof.
  intros Hinv. split; [|split; [|split]].
  - intros l1 x l2 Hs Hk. now apply addItem_present.
  - intros Habs. pose proof (addItem_absent p s Habs) as H1. split; [exact H1|].
    assert (Hinv' : cart_inv (items (addItem p s))).
    { rewrite H1. destruct Hinv as [Hn Hq]. split.
      - rewrite ids_app. simpl. apply NoDup_app; [exact Hn | | ].
        + constructor; [intros [] | constructor].
        + intros k Hk [<- | []]. apply absent_not_in in Habs. now apply Habs.
      - apply Forall_app. split; [exact Hq|]. constructor; [simpl; lia | constructor]. }
    rewrite (addItem_present p (addItem p s) (items s)
               {| product := p; quantity := 1 |} [] Hinv' H1 eq_refl).
    reflexivity.
  - unfold addItem. destruct (find _ (items s)); reflexivity.
  - unfold addItem. destruct (find _ (items s)); reflexivity.
Qed.

Lemma sample_cart_inv : cart_inv (items Samples.cart).
Proof.
  split; simpl.
  - repeat constructor; simpl; intuition discriminate.
  - repeat constructor; simpl; lia.
Qed.

Lemma addItem_spec_witness :
  items (addItem Samples.gown Samples.cart)
  = [ {| product := Samples.jacket; quantity := 2 |};
      {| product := Samples.gown; quantity := 2 |} ]
  /\ items (addItem Samples.hoodie (addItem Samples.hoodie Samples.cart))
     = items Samples.cart ++ [{| product := Samples.hoodie; quantity := 2 |}].
Proof.
  destruct (addItem_spec Samples.gown Samples.cart sample_cart_inv) as [Hp _].
  destruct (addItem_spec Samples.hoodie Samples.cart sample_cart_inv) as [_ [Ha _]].
  split.
  - exact (Hp [ {| product := Samples.jacket; quantity := 2 |} ]
              {| product := Samples.gown; quantity := 1 |} [] eq_refl eq_refl).
  - apply Ha. intros item [<- | [<- | []]]; simpl; discriminate.
Defined.

Lemma updateQuantity_absent k q s :
  cart_inv (items s) -> absent k (items s) -> updateQuantity k q s = s.
Proof.
  intros [_ Hq] Habs. unfold updateQuantity.
  change (fun item => if String.eqb (id (product item)) k
                      then with_quantity item q else item)
    with (bump k (fun item => with_quantity item q)).
  rewrite (map_bump_absent _ _ _ Habs), (filter_positive _ Hq).
  destruct s; reflexivity.
Qed.

(** C2. In a cart that satisfies the invariant,
    [updateQuantity productId next] replaces the quantity of the line of
    [productId] by [next] when there is such a line and [next >= 1];
    removes that line and no other, so that the cart has exactly one line
    less, when there is such a line and [next <= 0]; and returns the store
    unchanged when the cart has no line for [productId]. *)
Theorem updateQuantity_spec (productId : string) (next : Z) (s : CartState) :
  cart_inv (items s) ->
  (forall l1 x l2,
      items s = l1 ++ x :: l2 -> id (product x) = productId ->
      (1 <= next ->
       items (updateQuantity productId next s)
       = l1 ++ {| product := product x; quantity := next |} :: l2)
      /\ (next <= 0 ->
          items (updateQuantity productId next s) = l1 ++ l2
          /\ (List.length (items (updateQuantity productId next s)) + 1
              = List.length (items s))%nat))
  /\ (absent productId (items s) -> updateQuantity productId next s = s).
Proof.
  intros Hinv. split; [|now apply updateQuantity_absent].
  intros l1 x l2 Hs Hk. destruct Hinv as [Hn Hq]. rewrite Hs in Hn, Hq.
  destruct (NoDup_ids_split _ _ _ Hn) as [H1 H2]. rewrite Hk in H1, H2.
  apply Forall_app in Hq as [Hq1 Hq2]. apply Forall_cons_iff in Hq2 as [_ Hq2].
  rewrite updateQuantity_items, Hs,
    (map_bump_split productId _ l1 x l2 Hk H1 H2), filter_app.
  cbn [filter with_quantity quantity].
  rewrite (filter_positive _ Hq1), (filter_positive _ Hq2).
  split; intros Hnext.
  - replace (0 <? next) with true by (symmetry; apply Z.ltb_lt; lia). reflexivity.
  - replace (0 <? next) with false by (symmetry; apply Z.ltb_ge; lia).
    split; [reflexivity|]. rewrite !length_app. simpl. lia.
Qed.

Lemma updateQuantity_spec_witness :
  items (updateQuantity "p1" 5 Samples.cart)
  = [ {| product := Samples.jacket; quantity := 5 |};
      {| product := Samples.gown; quantity := 1 |} ]
  /\ items (updateQuantity "p1" 0 Samples.cart)
     = [ {| product := Samples.gown; quantity := 1 |} ]
  /\ updateQuantity "p9" 0 Samples.cart = Samples.cart.
Proof.
  destruct (updateQuantity_spec "p1" 5 Samples.cart sample_cart_inv) as [H5 _].
  destruct (updateQuantity_spec "p1" 0 Samples.cart sample_cart_inv) as [H0 _].
  destruct (updateQuantity_spec "p9" 0 Samples.cart sample_cart_inv) as [_ H9].
  split; [|split].
  - apply (H5 [] {| product := Samples.jacket; quantity := 2 |}
              [ {| product := Samples.gown; quantity := 1 |} ] eq_refl eq_refl).
    lia.
  - apply (H0 [] {| product := Samples.jacket; quantity := 2 |}
              [ {| product := Samples.gown; quantity := 1 |} ] eq_refl eq_refl).
    lia.
  - apply H9. intros item [<- | [<- | []]]; simpl; discriminate.
Defined.

Lemma find_none_absent k l :
  find (fun item => String.eqb (id (product item)) k) l = None -> absent k l.
Proof.
  intros H item Hin Hk.
  apply (find_none _ _ H) in Hin. simpl in Hin.
  rewrite Hk, String.eqb_refl in Hin. discriminate.
Qed.

Lemma ids_map_bump k g l :
  (forall item, product (g item) = product item) ->
  ids (map (bump k g) l) = ids l.
Proof.
  intros Hg. unfold ids. rewrite map_map. apply map_ext. intros item.
  unfold bump. destruct (String.eqb _ k); [now rewrite Hg | reflexivity].
Qed.

Lemma NoDup_ids_filter f l : NoDup (ids l) -> NoDup (ids (filter f l)).
Proof.
  induction l as [|x l IH]; simpl; intros H; [exact H|].
  apply NoDup_cons_iff in H as [Hx Hl].
  destruct (f x); simpl; [|auto].
  constructor; [|auto].
  intros Hin. apply Hx. unfold ids in *. apply in_map_iff in Hin as [y [Hy Hin]].
  apply filter_In in Hin as [Hin _]. apply in_map_iff. eauto.
Qed.

Lemma addItem_inv p s : cart_inv (items s) -> cart_inv (items (addItem p s)).
Proof.
  intros [Hn Hq]. rewrite addItem_items.
  destruct (find _ (items s)) eqn:E.
  - split.
    + now rewrite ids_map_bump.
    + apply Forall_map. eapply Forall_impl; [|exact Hq].
      intros item Hi. unfold bump, with_quantity.
      destruct (String.eqb _ _); simpl in *; lia.
  - apply find_none_absent, absent_not_in in E. split.
    + rewrite ids_app. simpl. apply NoDup_app; [exact Hn | | ].
      * constructor; [intros [] | constructor].
      * intros k Hk [<- | []]. now apply E.
    + apply Forall_app. split; [exact Hq|]. constructor; [simpl; lia | constructor].
Qed.

Lemma updateQuantity_inv k q s :
  cart_inv (items s) -> cart_inv (items (updateQuantity k q s)).
Proof.
  intros [Hn _]. rewrite updateQuantity_items. split.
  - apply NoDup_ids_filter. now rewrite ids_map_bump.
  - apply Forall_forall. intros item Hin. apply filter_In in Hin as [_ Hpos].
    apply Z.ltb_lt in Hpos. lia.
Qed.

(** C3. Every cart state reached from the empty cart by finitely many
    store actions ([addItem], [updateQuantity], [resetCart], and the two
    actions that do not touch the lines) has at most one line per product
    identifier and only quantities of at least 1. *)
Theorem reachable_cart_inv (s : CartState) :
  reachable s ->
  NoDup (ids (items s)) /\ Forall (fun item => 1 <= quantity item) (items s).
Proof.
  induction 1 as [|a s _ IH].
  - split; constructor.
  - destruct a; simpl.
    + now apply addItem_inv.
    + now apply updateQuantity_inv.
    + exact IH.
    + exact IH.
    + split; constructor.
Qed.

Lemma reachable_cart_inv_witness :
  let s := dispatch (UpdateQuantity "p2" 0)
             (dispatch (AddItem Samples.jacket)
                (dispatch (AddItem Samples.gown)
                   (dispatch (AddItem Samples.jacket) initial))) in
  items s = [ {| product := Samples.jacket; quantity := 2 |} ]
  /\ NoDup (ids (items s))
  /\ Forall (fun item => 1 <= quantity item) (items s).
Proof.
  split; [reflexivity|].
  apply reachable_cart_inv. repeat apply reachable_dispatch. apply reachable_initial.
Defined.

End CartFacts.

(* ------------------------------------------------------------------ *)
(** ** The catalog filter *)

Section CatalogFacts.

Import JsString Store.

Lemma keeps_shown c t p : keeps c t p = true <-> shown c t p.
Proof.
  unfold keeps, shown, occurs_ignoring_case.
  rewrite andb_true_iff, !orb_true_iff, negb_true_iff, truthy_false_iff,
    toLowerCase_empty_iff, !includes_iff.
  destruct (String.eqb_spec c "All"), (String.eqb_spec (category p) c);
    intuition congruence.
Qed.

(** C8. The filtered catalog is the product list, in its order, cut down
    to exactly the products for which the selected category is ["All"] or
    equal to the product's category, and for which the trimmed search term
    is empty or occurs, case ignored, in the product's name or in its
    description. The filter is a function of these three values alone. *)
Theorem filteredProducts_spec (products : list Product)
    (activeCategory searchTerm : string) :
  (forall p, In p (filteredProducts products activeCategory searchTerm)
             <-> In p products /\ shown activeCategory searchTerm p)
  /\ exists keep : Product -> bool,
      (forall p, keep p = true <-> shown activeCategory searchTerm p)
      /\ filteredProducts products activeCategory searchTerm = filter keep products.
Proof.
  split.
  - intros p. unfold filteredProducts. rewrite filter_In.
    change (In p products /\ keeps activeCategory searchTerm p = true
            <-> In p products /\ shown activeCategory searchTerm p).
    now rewrite keeps_shown.
  - exists (keeps activeCategory searchTerm). split.
    + intros p. apply keeps_shown.
    + reflexivity.
Qed.

Example filteredProducts_streetwear_jacket :
  filteredProducts [Samples.jacket; Samples.gown; Samples.hoodie] "Streetwear" "  jAcKeT "
  = [Samples.jacket]
  /\ filteredProducts [Samples.jacket; Samples.gown; Samples.hoodie] "All" "jacket"
     = [Samples.jacket; Samples.gown].
Proof. split; reflexivity. Qed.

End CatalogFacts.

(* ------------------------------------------------------------------ *)
(** ** The product detail overlay *)

Section CarouselFacts.

Import ProductDetailModal.

Lemma images_length_nonneg p : 0 <= images_length p.
Proof. unfold images_length. lia. Qed.

Lemma timerRunning_true p s :
  timerRunning p s = true
  <-> isOpen p = true /\ isAutoplaying s = true /\ 1 < images_length p.
Proof.
  unfold timerRunning.
  rewrite negb_true_iff, !orb_false_iff, !negb_false_iff, Z.leb_gt. tauto.
Qed.

Lemma timerRunning_paused p s : isAutoplaying s = false -> timerRunning p s = false.
Proof.
  intros H. unfold timerRunning. rewrite H. simpl. now rewrite orb_true_r.
Qed.

Lemma timerRunning_few p s : images_length p <= 1 -> timerRunning p s = false.
Proof.
  intros H. unfold timerRunning.
  replace (images_length p <=? 1) with true by (symmetry; now apply Z.leb_le).
  now rewrite orb_true_r.
Qed.

Lemma controlsShown_few p : images_length p <= 1 -> controlsShown p = false.
Proof.
  intros H. unfold controlsShown.
  replace (1 <? images_length p) with false by (symmetry; apply Z.ltb_ge; lia).
  apply andb_false_r.
Qed.

Lemma handle_Tick_running p i :
  isOpen p = true -> 1 < images_length p ->
  handle Tick {| props := p; state := {| activeIndex := i; isAutoplaying := true |} |}
  = Some {| props := p;
            state := {| activeIndex := Z.rem (i + 1) (images_length p);
                        isAutoplaying := true |} |}.
Proof.
  intros Ho Hn. unfold handle. cbn [props state].
  replace (timerRunning p _) with true
    by (symmetry; now apply timerRunning_true).
  reflexivity.
Qed.

(** C9. The interval of the overlay has a period of 4000 ms. While the
    overlay is open, not paused and shows n > 1 images, each firing takes
    the active index i to (i + 1) mod n and leaves rotation on; opened on
    a product with three images and left alone, the index goes 0, 1, 2, 0.
    Next, previous and direct selection each switch rotation off, after
    which the interval no longer fires. Every opening of a closed overlay
    puts the index at 0 with rotation on. With at most one image the
    interval never fires and none of the carousel buttons is there. *)
Theorem carousel_spec :
  AUTOPLAY_INTERVAL = 4000
  /\ (forall m,
        isOpen (props m) = true -> isAutoplaying (state m) = true ->
        1 < images_length (props m) -> 0 <= activeIndex (state m) ->
        handle Tick m
        = Some {| props := props m;
                  state := {| activeIndex :=
                                (activeIndex (state m) + 1) mod images_length (props m);
                              isAutoplaying := true |} |})
  /\ (forall m pr,
        isOpen (props m) = false -> List.length (images pr) = 3%nat ->
        indices [Render {| product := Some pr; isOpen := true |}; Tick; Tick; Tick] m
        = Some [0; 1; 2; 0])
  /\ (forall m m',
        handle ClickNext m = Some m' \/ handle ClickPrev m = Some m' ->
        isAutoplaying (state m') = false /\ handle Tick m' = None)
  /\ (forall i m,
        isAutoplaying (goToSlide i (state m)) = false
        /\ handle Tick {| props := props m; state := goToSlide i (state m) |} = None)
  /\ (forall m p,
        isOpen (props m) = false -> isOpen p = true ->
        handle (Render p) m
        = Some {| props := p; state := {| activeIndex := 0; isAutoplaying := true |} |})
  /\ (forall m,
        images_length (props m) <= 1 ->
        handle Tick m = None /\ handle ClickNext m = None
        /\ handle ClickPrev m = None /\ handle ClickToggle m = None).
Proof.
  split; [reflexivity|]. split; [|split; [|split; [|split; [|split]]]].
  - intros m Ho Ha Hn Hi. unfold handle.
    replace (timerRunning (props m) (state m)) with true
      by (symmetry; now apply timerRunning_true).
    unfold tick. rewrite Ha, Z.rem_mod_nonneg by lia. reflexivity.
  - intros m pr Ho Hlen.
    set (p := {| product := Some pr; isOpen := true |}).
    assert (Hn : images_length p = 3)
      by (unfold images_length, images_of, p; cbn [product]; now rewrite Hlen).
    assert (Hr : handle (Render p) m
                 = Some {| props := p;
                           state := {| activeIndex := 0; isAutoplaying := true |} |})
      by (unfold handle, resetEffect; now rewrite Ho).
    cbn [indices]. rewrite Hr.
    rewrite !(handle_Tick_running p) by (rewrite ?Hn; reflexivity || lia).
    rewrite Hn. reflexivity.
  - intros m m' H. unfold handle in H.
    assert (Hp : isAutoplaying (state m') = false).
    { destruct H as [H | H]; destruct (controlsShown (props m));
        try discriminate; injection H as <-; reflexivity. }
    split; [exact Hp|]. unfold handle. now rewrite timerRunning_paused.
  - intros i m. split; [reflexivity|]. unfold handle. now rewrite timerRunning_paused.
  - intros m p Hc Ho. unfold handle, resetEffect. rewrite Hc, Ho. reflexivity.
  - intros m Hn. unfold handle.
    rewrite (timerRunning_few _ _ Hn), (controlsShown_few _ Hn). auto.
Qed.

Lemma carousel_spec_witness :
  let closed := {| props := {| product := None; isOpen := false |};
                   state := {| activeIndex := 2; isAutoplaying := false |} |} in
  let opened := {| props := {| product := Some Samples.jacket; isOpen := true |};
                   state := mounted |} in
  handle (Render (props opened)) closed = Some opened
  /\ handle Tick opened
     = Some {| props := props opened;
               state := {| activeIndex := 1; isAutoplaying := true |} |}
  /\ indices [Render (props opened); Tick; Tick; Tick] closed = Some [0; 1; 2; 0]
  /\ handle Tick {| props := {| product := Some Samples.gown; isOpen := true |};
                    state := mounted |} = None.
Proof.
  destruct carousel_spec as [_ [Htick [Hthree [_ [_ [Hopen Hfew]]]]]].
  intros closed opened. split; [|split; [|split]].
  - exact (Hopen closed (props opened) eq_refl eq_refl).
  - exact (Htick opened eq_refl eq_refl eq_refl (Z.le_refl 0)).
  - exact (Hthree closed Samples.jacket eq_refl eq_refl).
  - apply Hfew. unfold images_length. simpl. lia.
Defined.

End CarouselFacts.

(* ------------------------------------------------------------------ *)
(** ** The checkout form *)

Section CheckoutFacts.

Import JsString CartCheckout.

Lemma missing_iff f :
  missing f = true
  <-> blank (fullName f) = true \/ blank (phone f) = true
      \/ blank (address f) = true \/ blank (size f) = true.
Proof.
  unfold missing.
  rewrite !orb_true_iff, !negb_true_iff, !truthy_false_iff, !trim_empty_iff.
  tauto.
Qed.

Lemma handleSubmit_begin_missing w :
  missing (form w) = true ->
  handleSubmit_begin w
  = (None,
     {| form := {| fullName := fullName (form w); phone := phone (form w);
                   address := address (form w); size := size (form w);
                   error := Some validation_message;
                   submitting := submitting (form w) |};
        store := store w;
        effects := effects w |}).
Proof.
  intros H. unfold handleSubmit_begin, bind, getForm, getItems. rewrite H.
  reflexivity.
Qed.

Lemma handleSubmit_begin_complete w :
  missing (form w) = false ->
  handleSubmit_begin w
  = (Some {| seen := form w; seenItems := CartStore.items (store w) |},
     {| form := {| fullName := fullName (form w); phone := phone (form w);
                   address := address (form w); size := size (form w);
                   error := None; submitting := true |};
        store := store w;
        effects := effects w
                   ++ [Post orders_url (body_of (form w) (CartStore.items (store w)))] |}).
Proof.
  intros H. unfold handleSubmit_begin, bind, getForm, getItems. rewrite H.
  reflexivity.
Qed.

Lemma handleSubmit_resume_fulfilled cb c w :
  exec (handleSubmit_resume cb c Axios.Fulfilled) w
  = {| form := {| fullName := ""; phone := ""; address := ""; size := defaultSize;
                  error := error (form w); submitting := false |};
       store := cb (details_of (seen c)) (store w);
       effects := effects w ++ [OnSubmitOrder (details_of (seen c))] |}.
Proof. reflexivity. Qed.

Lemma handleSubmit_resume_thrown cb c err w :
  exec (handleSubmit_resume cb c (Axios.Thrown err)) w
  = {| form := {| fullName := fullName (form w); phone := phone (form w);
                  address := address (form w); size := size (form w);
                  error := Some failure_message; submitting := false |};
       store := store w;
       effects := effects w ++ [ConsoleError "Order submission error:" err] |}.
Proof. reflexivity. Qed.

Lemma handleSubmit_unfold cb reply w :
  exec (handleSubmit cb reply) w
  = match handleSubmit_begin w with
    | (None, w') => w'
    | (Some c, w') => exec (handleSubmit_resume cb c reply) w'
    end.
Proof.
  unfold handleSubmit, exec, bind. destruct (handleSubmit_begin w) as [[c|] w'];
    reflexivity.
Qed.

Lemma begin_store w : store (snd (handleSubmit_begin w)) = store w.
Proof.
  destruct (missing (form w)) eqn:E.
  - now rewrite handleSubmit_begin_missing.
  - now rewrite handleSubmit_begin_complete.
Qed.

Lemma trim_sizes v : In v sizes -> trim v = v.
Proof.
  intros H. repeat (destruct H as [<- | H]; [reflexivity|]). destruct H.
Qed.

End CheckoutFacts.

(* ------------------------------------------------------------------ *)
(** ** Submitting an order *)

Section SubmissionFacts.

Import JsString CartCheckout Store.

Lemma handleSubmit_store cb reply w :
  store (exec (handleSubmit cb reply) w)
  = if missing (form w) then store w
    else match reply with
         | Axios.Fulfilled => cb (details_of (form w)) (store w)
         | Axios.Thrown _ => store w
         end.
Proof.
  rewrite handleSubmit_unfold. destruct (missing (form w)) eqn:E.
  - now rewrite handleSubmit_begin_missing.
  - rewrite handleSubmit_begin_complete by exact E. destruct reply.
    + now rewrite handleSubmit_resume_fulfilled.
    + now rewrite handleSubmit_resume_thrown.
Qed.

Lemma handle_Submit_inv pg pg' :
  handle Submit pg = Some pg' ->
  world pg' = snd (handleSubmit_begin (world pg))
  /\ pending pg' = fst (handleSubmit_begin (world pg)).
Proof.
  unfold handle. destruct (editable pg && hasItems (world pg)); [|discriminate].
  destruct (handleSubmit_begin (world pg)) as [c w]. intros [= <-]. now split.
Qed.

Lemma handle_Settle_inv reply pg pg' :
  handle (Settle reply) pg = Some pg' ->
  exists c, pending pg = Some c
            /\ world pg' = exec (handleSubmit_resume onSubmitOrder c reply) (world pg)
            /\ pending pg' = None.
Proof.
  unfold handle. destruct (pending pg) as [c|]; [|discriminate].
  intros [= <-]. now exists c.
Qed.

Lemma resume_store_wired c reply w :
  store (exec (handleSubmit_resume onSubmitOrder c reply) w) = store w.
Proof. destruct reply; reflexivity. Qed.

(** C4. [handleSubmit] itself never writes the cart store: after a
    submission the store is the one before it, but for what the
    [onSubmitOrder] callback did to it, and the callback runs only when
    the request was sent and fulfilled. It is then called once, after the
    request, with the trimmed name, phone and address and the selected
    size (a listed size is its own trimmed form). With the callback the
    page passes, the store, and so the cart's lines, are exactly as before,
    for a whole submission as for the two clicks of the page that make
    it up. *)
Theorem handleSubmit_store_frame (cb : Callback) (reply : Axios.Reply) (w : World) :
  store (exec (handleSubmit cb reply) w)
  = (if missing (form w) then store w
     else match reply with
          | Axios.Fulfilled => cb (details_of (form w)) (store w)
          | Axios.Thrown _ => store w
          end)
  /\ (missing (form w) = false ->
      effects (exec (handleSubmit cb Axios.Fulfilled) w)
      = effects w
        ++ [Post orders_url (body_of (form w) (CartStore.items (store w)));
            OnSubmitOrder
              {| CheckoutDetails.fullName := trim (fullName (form w));
                 CheckoutDetails.phone := trim (phone (form w));
                 CheckoutDetails.address := trim (address (form w));
                 CheckoutDetails.size := size (form w) |}])
  /\ (In (size (form w)) sizes -> trim (size (form w)) = size (form w))
  /\ store (exec (handleSubmit onSubmitOrder reply) w) = store w
  /\ CartStore.items (store (exec (handleSubmit onSubmitOrder reply) w))
     = CartStore.items (store w)
  /\ (forall pg pg',
        handle Submit pg = Some pg' \/ handle (Settle reply) pg = Some pg' ->
        store (world pg') = store (world pg)).
Proof.
  split; [apply handleSubmit_store|]. split; [|split; [|split; [|split]]].
  - intros E. rewrite handleSubmit_unfold, handleSubmit_begin_complete by exact E.
    rewrite handleSubmit_resume_fulfilled. cbn [effects seen].
    rewrite <- app_assoc. reflexivity.
  - apply trim_sizes.
  - rewrite handleSubmit_store. destruct (missing (form w)), reply; reflexivity.
  - rewrite handleSubmit_store. destruct (missing (form w)), reply; reflexivity.
  - intros pg pg' [H | H].
    + apply handle_Submit_inv in H as [-> _]. apply begin_store.
    + apply handle_Settle_inv in H as [c [_ [-> _]]]. apply resume_store_wired.
Qed.

Lemma handleSubmit_store_frame_witness :
  effects (exec (handleSubmit onSubmitOrder Axios.Fulfilled) Samples.filled)
  = [Post orders_url
       {| OrderBody.fullName := "Ada Lovelace"; OrderBody.phone := "555 0100";
          OrderBody.address := "12 Mill Lane"; OrderBody.size := "L";
          OrderBody.items := [ {| OrderBody.productId := "p1"; OrderBody.quantity := 2 |};
                               {| OrderBody.productId := "p2"; OrderBody.quantity := 1 |} ] |};
     OnSubmitOrder
       {| CheckoutDetails.fullName := "Ada Lovelace"; CheckoutDetails.phone := "555 0100";
          CheckoutDetails.address := "12 Mill Lane"; CheckoutDetails.size := "L" |}]
  /\ trim "L" = "L"
  /\ store (exec (handleSubmit onSubmitOrder Axios.Fulfilled) Samples.filled) = Samples.cart.
Proof.
  destruct (handleSubmit_store_frame onSubmitOrder Axios.Fulfilled Samples.filled)
    as [_ [He [Ht [Hs _]]]].
  split; [|split].
  - exact (He eq_refl).
  - apply Ht. simpl. auto.
  - exact Hs.
Defined.

(** C5, evaluated where it fails. The sample form is submitted and the
    backend accepts the order: the fields are back at their defaults and
    the form can be submitted again, but the confirmation message the
    checkout renders, the store's [confirmationMessage], is still [null],
    and no error is set either: nothing tells the customer that the order
    went through. The same holds when the order is placed click by click
    from the freshly loaded page. *)
Example handleSubmit_fulfilled_no_confirmation :
  form (exec (handleSubmit onSubmitOrder Axios.Fulfilled) Samples.filled) = mounted
  /\ CartStore.confirmationMessage
       (store (exec (handleSubmit onSubmitOrder Axios.Fulfilled) Samples.filled))
     = None
  /\ (exists pg,
        run [AddToCart Samples.jacket; ChangeFullName "Ada"; ChangePhone "555 0100";
             ChangeAddress "12 Mill Lane"; Submit; Settle Axios.Fulfilled] loaded
        = Some pg
        /\ form (world pg) = mounted
        /\ CartStore.confirmationMessage (store (world pg)) = None
        /\ posts (world pg)
           = [ {| OrderBody.fullName := "Ada"; OrderBody.phone := "555 0100";
                  OrderBody.address := "12 Mill Lane"; OrderBody.size := "M";
                  OrderBody.items :=
                    [ {| OrderBody.productId := "p1"; OrderBody.quantity := 1 |} ] |} ]).
Proof.
  split; [reflexivity|]. split; [reflexivity|].
  eexists. split; [reflexivity|]. repeat split.
Qed.

(** C6. When the full name, the phone number, the address or the size
    is empty or nothing but white space, [handleSubmit] stops at its
    guard: the validation message, which is not empty and so is rendered,
    becomes the error; nothing is sent and the callback is not called;
    the four fields, the submitting flag and the cart store are as they
    were. *)
Theorem handleSubmit_rejects_blank (cb : Callback) (reply : Axios.Reply) (w : World) :
  blank (fullName (form w)) = true \/ blank (phone (form w)) = true
  \/ blank (address (form w)) = true \/ blank (size (form w)) = true ->
  error (form (exec (handleSubmit cb reply) w)) = Some validation_message
  /\ truthy validation_message = true
  /\ effects (exec (handleSubmit cb reply) w) = effects w
  /\ posts (exec (handleSubmit cb reply) w) = posts w
  /\ fullName (form (exec (handleSubmit cb reply) w)) = fullName (form w)
  /\ phone (form (exec (handleSubmit cb reply) w)) = phone (form w)
  /\ address (form (exec (handleSubmit cb reply) w)) = address (form w)
  /\ size (form (exec (handleSubmit cb reply) w)) = size (form w)
  /\ submitting (form (exec (handleSubmit cb reply) w)) = submitting (form w)
  /\ store (exec (handleSubmit cb reply) w) = store w.
Proof.
  intros H. apply missing_iff in H.
  rewrite handleSubmit_unfold, handleSubmit_begin_missing by exact H.
  repeat split.
Qed.

Lemma handleSubmit_rejects_blank_witness :
  exec (handleSubmit onSubmitOrder Axios.Fulfilled) Samples.spaced
  = {| form := {| fullName := "Ada"; phone := "   "; address := "12 Mill Lane";
                  size := "L"; error := Some validation_message;
                  submitting := false |};
       store := Samples.cart;
       effects := [] |}
  /\ error (form (exec (handleSubmit onSubmitOrder Axios.Fulfilled) Samples.spaced))
     = Some validation_message.
Proof.
  split; [reflexivity|].
  apply (handleSubmit_rejects_blank onSubmitOrder Axios.Fulfilled Samples.spaced).
  right. left. reflexivity.
Defined.

Lemma or_else_message v fallback :
  Axios.or_else v fallback
  = match v with
    | Some "" | None => fallback
    | Some s => s
    end.
Proof. destruct v as [[|c s]|]; reflexivity. Qed.

(** C7, as amended. Whatever a failed order submission comes back with,
    a backend message or none, the checkout sets the same fixed error,
    ["Failed to submit order. Please try again."], and sends what it
    caught to the console only. Showing the backend's message as it is,
    and a generic one only when there is none (or an empty one), is what
    the add-product form of the admin dashboard does. *)
Theorem handleSubmit_failure_message (cb : Callback) (c : Closure)
    (err : Axios.AxiosError) (w : World) :
  error (form (exec (handleSubmit_resume cb c (Axios.Thrown err)) w))
  = Some failure_message
  /\ failure_message = "Failed to submit order. Please try again."
  /\ effects (exec (handleSubmit_resume cb c (Axios.Thrown err)) w)
     = effects w ++ [ConsoleError "Order submission error:" err]
  /\ (forall s msg,
        Axios.response_data_message err = Some msg -> msg <> "" ->
        AdminDashboard.error (AdminDashboard.handleAddProduct_catch err s) = msg)
  /\ (forall s,
        Axios.response_data_message err = None
        \/ Axios.response_data_message err = Some "" ->
        AdminDashboard.error (AdminDashboard.handleAddProduct_catch err s)
        = "Failed to add product").
Proof.
  rewrite handleSubmit_resume_thrown. repeat split.
  - intros s msg Hm Hne. unfold AdminDashboard.handleAddProduct_catch.
    cbn [AdminDashboard.error]. rewrite or_else_message, Hm.
    destruct msg; [contradiction|reflexivity].
  - intros s [Hm | Hm]; unfold AdminDashboard.handleAddProduct_catch;
      cbn [AdminDashboard.error]; now rewrite or_else_message, Hm.
Qed.

Lemma handleSubmit_failure_message_witness :
  error (form (exec (handleSubmit onSubmitOrder (Axios.Thrown Samples.outOfStock))
                 Samples.filled))
  = Some "Failed to submit order. Please try again."
  /\ AdminDashboard.error
       (AdminDashboard.handleAddProduct_catch Samples.outOfStock
          {| AdminDashboard.error := ""; AdminDashboard.isAdding := true |})
     = "Out of stock"
  /\ AdminDashboard.error
       (AdminDashboard.handleAddProduct_catch Samples.networkDown
          {| AdminDashboard.error := ""; AdminDashboard.isAdding := true |})
     = "Failed to add product".
Proof.
  destruct (handleSubmit_failure_message onSubmitOrder
              {| seen := Samples.filledForm;
                 seenItems := CartStore.items Samples.cart |}
              Samples.outOfStock
              (snd (handleSubmit_begin Samples.filled))) as [H1 [_ [_ [H2 _]]]].
  destruct (handleSubmit_failure_message onSubmitOrder
              {| seen := Samples.filledForm;
                 seenItems := CartStore.items Samples.cart |}
              Samples.networkDown Samples.filled) as [_ [_ [_ [_ H3]]]].
  split; [exact H1|]. split.
  - apply (H2 _ "Out of stock"); [reflexivity | discriminate].
  - apply H3. left. reflexivity.
Defined.

(** C7, as stated, fails: the backend answers 409 with the message
    ["Out of stock"], and the checkout shows its own fixed message, not
    the backend's. *)
Lemma handleSubmit_hides_backend_message :
  Axios.response_data_message Samples.outOfStock = Some "Out of stock"
  /\ error (form (exec (handleSubmit onSubmitOrder (Axios.Thrown Samples.outOfStock))
                    Samples.filled))
     = Some "Failed to submit order. Please try again."
  /\ error (form (exec (handleSubmit onSubmitOrder (Axios.Thrown Samples.outOfStock))
                    Samples.filled))
     <> Some "Out of stock".
Proof. split; [reflexivity|]. split; [reflexivity | discriminate]. Qed.

Lemma begin_size w : size (form (snd (handleSubmit_begin w))) = size (form w).
Proof.
  destruct (missing (form w)) eqn:E.
  - now rewrite handleSubmit_begin_missing.
  - now rewrite handleSubmit_begin_complete.
Qed.

Lemma defaultSize_listed : In defaultSize sizes.
Proof. simpl. auto. Qed.

(** Every control of the page leaves a listed size in the form. *)
Lemma handle_size e pg pg' :
  handle e pg = Some pg' ->
  In (size (form (world pg))) sizes -> In (size (form (world pg'))) sizes.
Proof.
  intros Hh Hin. destruct e.
  - injection Hh as <-. exact Hin.
  - injection Hh as <-. exact Hin.
  - unfold handle in Hh. destruct (CartStore.checkoutOpen _); [|discriminate].
    injection Hh as <-. exact Hin.
  - unfold handle in Hh. destruct (CartStore.checkoutOpen _); [|discriminate].
    destruct (nth_error _ n); [|discriminate]. injection Hh as <-. exact Hin.
  - unfold handle in Hh. destruct (editable pg); [|discriminate].
    injection Hh as <-. exact Hin.
  - unfold handle in Hh. destruct (editable pg); [|discriminate].
    injection Hh as <-. exact Hin.
  - unfold handle in Hh. destruct (editable pg); [|discriminate].
    injection Hh as <-. exact Hin.
  - unfold handle in Hh.
    destruct (editable pg && existsb (String.eqb v) sizes) eqn:E; [|discriminate].
    injection Hh as <-. apply andb_true_iff in E as [_ E].
    apply existsb_exists in E as [x [Hx Hv]]. apply String.eqb_eq in Hv.
    subst x. exact Hx.
  - apply handle_Submit_inv in Hh as [-> _]. now rewrite begin_size.
  - apply handle_Settle_inv in Hh as [c [_ [-> _]]]. destruct reply.
    + rewrite handleSubmit_resume_fulfilled. apply defaultSize_listed.
    + rewrite handleSubmit_resume_thrown. exact Hin.
Qed.

Lemma size_listed pg : reachable pg -> In (size (form (world pg))) sizes.
Proof.
  induction 1 as [|e pg pg' _ IH Hh].
  - apply defaultSize_listed.
  - exact (handle_size e pg pg' Hh IH).
Qed.

Lemma sizes_not_blank v : In v sizes -> blank v = false.
Proof.
  intros H. repeat (destruct H as [<- | H]; [reflexivity|]). destruct H.
Qed.

Lemma run_reachable es pg pg' :
  reachable pg -> run es pg = Some pg' -> reachable pg'.
Proof.
  revert pg. induction es as [|e es IH]; simpl; intros pg Hr H.
  - now injection H as <-.
  - destruct (handle e pg) as [pg1|] eqn:E; [|discriminate].
    apply (IH pg1); [|exact H]. now apply (reachable_step e pg).
Qed.

(** C10. The size of the form starts as ["M"], and in every page
    reached from the loaded one it is one of ["XS"], ["S"], ["M"], ["L"],
    ["XL"]: the select offers nothing else and a fulfilled submission puts
    ["M"] back. So the size is never empty or white space, and a
    submission that the guard turns down has an empty or white-space full
    name, phone number or address. *)
Theorem size_always_listed (pg : Page) :
  reachable pg ->
  size mounted = "M"
  /\ sizes = ["XS"; "S"; "M"; "L"; "XL"]
  /\ In (size (form (world pg))) sizes
  /\ blank (size (form (world pg))) = false
  /\ (rejected pg ->
      blank (fullName (form (world pg))) = true
      \/ blank (phone (form (world pg))) = true
      \/ blank (address (form (world pg))) = true).
Proof.
  intros Hr. split; [reflexivity|]. split; [reflexivity|].
  assert (Hin : In (size (form (world pg))) sizes).
  { induction Hr as [|e pg pg' _ IH Hh].
    - apply defaultSize_listed.
    - exact (handle_size e pg pg' Hh IH). }
  split; [exact Hin|]. split; [now apply sizes_not_blank|].
  unfold rejected. intros Hrej.
  destruct (missing (form (world pg))) eqn:E.
  - apply missing_iff in E. rewrite (sizes_not_blank _ Hin) in E.
    destruct E as [E | [E | [E | E]]]; auto. discriminate.
  - rewrite handleSubmit_begin_complete in Hrej by exact E. discriminate.
Qed.

Lemma size_always_listed_witness :
  exists pg,
    run [AddToCart Samples.jacket; ChangeSize "XL"; ChangeFullName "Ada";
         ChangePhone "  "; Submit] loaded = Some pg
    /\ size (form (world pg)) = "XL"
    /\ error (form (world pg)) = Some validation_message
    /\ In (size (form (world pg))) sizes.
Proof.
  eexists. split; [reflexivity|]. split; [reflexivity|]. split; [reflexivity|].
  refine (proj1 (proj2 (proj2 (size_always_listed _ _)))).
  apply (run_reachable [AddToCart Samples.jacket; ChangeSize "XL"; ChangeFullName "Ada";
                        ChangePhone "  "; Submit] loaded);
    [apply reachable_loaded | reflexivity].
Defined.

End SubmissionFacts.

(* ------------------------------------------------------------------ *)
(** ** The cart seen from the page *)

Section BadgeFacts.

Import Store.

Lemma fold_count l acc :
  fold_left (fun count item => count + CartStore.quantity item) l acc
  = acc + cartCount l.
Proof.
  unfold cartCount. revert acc. induction l as [|x l IH]; intros acc; simpl.
  - lia.
  - rewrite (IH (acc + _)), (IH (CartStore.quantity x)). lia.
Qed.

Lemma cartCount_cons x l : cartCount (x :: l) = CartStore.quantity x + cartCount l.
Proof. unfold cartCount at 1. simpl. apply fold_count. Qed.

Lemma cartCount_app l1 l2 : cartCount (l1 ++ l2) = cartCount l1 + cartCount l2.
Proof.
  induction l1 as [|x l1 IH]; simpl.
  - reflexivity.
  - rewrite !cartCount_cons, IH. lia.
Qed.

Lemma find_split k l x :
  find (fun item => String.eqb (id (CartStore.product item)) k) l = Some x ->
  exists l1 l2, l = l1 ++ x :: l2 /\ id (CartStore.product x) = k.
Proof.
  intros H. apply find_some in H as [Hin Hk]. apply String.eqb_eq in Hk.
  apply in_split in Hin as [l1 [l2 ->]]. now exists l1, l2.
Qed.

Lemma cartCount_lines l :
  Forall (fun item => 1 <= CartStore.quantity item) l ->
  Z.of_nat (List.length l) <= cartCount l.
Proof.
  induction 1 as [|x l Hx _ IH].
  - reflexivity.
  - rewrite cartCount_cons. cbn [List.length]. cbv beta in Hx. lia.
Qed.

(** X1. In a cart that satisfies the invariant, the number on the cart
    button grows by exactly one with every [addItem], whether the product
    already has a line or not. *)
Theorem cartCount_addItem (p : Product) (s : CartStore.CartState) :
  CartStore.cart_inv (CartStore.items s) ->
  cartCount (CartStore.items (CartStore.addItem p s))
  = cartCount (CartStore.items s) + 1.
Proof.
  intros Hinv.
  destruct (find (fun item => String.eqb (id (CartStore.product item)) (id p))
              (CartStore.items s)) as [x|] eqn:E.
  - apply find_split in E as [l1 [l2 [Hs Hk]]].
    rewrite (addItem_present p s l1 x l2 Hinv Hs Hk), Hs.
    rewrite !cartCount_app, !cartCount_cons.
    cbn [CartStore.quantity CartStore.with_quantity]. lia.
  - apply find_none_absent in E. rewrite (addItem_absent p s E).
    rewrite cartCount_app, cartCount_cons. cbn [CartStore.quantity].
    change (cartCount []) with 0. lia.
Qed.

Lemma cartCount_addItem_witness :
  cartCount (CartStore.items Samples.cart) = 3
  /\ cartCount (CartStore.items (CartStore.addItem Samples.gown Samples.cart)) = 4
  /\ cartCount (CartStore.items (CartStore.addItem Samples.hoodie Samples.cart)) = 4.
Proof.
  split; [reflexivity|]. split.
  - exact (cartCount_addItem Samples.gown Samples.cart sample_cart_inv).
  - exact (cartCount_addItem Samples.hoodie Samples.cart sample_cart_inv).
Defined.

(** X2. In a cart that satisfies the invariant, the number on the cart
    button is at least the number of lines, and it is 0 exactly when the
    cart is empty. *)
Theorem cartCount_bounds (l : list CartStore.CartItem) :
  CartStore.cart_inv l ->
  Z.of_nat (List.length l) <= cartCount l /\ (cartCount l = 0 <-> l = []).
Proof.
  intros [_ Hq]. pose proof (cartCount_lines l Hq) as Hle. split; [exact Hle|].
  split.
  - intros H0. destruct l as [|x l]; [reflexivity|]. cbn [List.length] in Hle. lia.
  - intros ->. reflexivity.
Qed.

Lemma cartCount_bounds_witness :
  2 <= cartCount (CartStore.items Samples.cart)
  /\ (cartCount (CartStore.items Samples.cart) = 0
      <-> CartStore.items Samples.cart = []).
Proof.
  exact (cartCount_bounds (CartStore.items Samples.cart) sample_cart_inv).
Defined.

End BadgeFacts.

(* ------------------------------------------------------------------ *)
(** ** Trimming twice *)

Section TrimFacts.

Import JsString.

Lemma trimStart_head s c r : trimStart s = String c r -> isWhiteSpace c = false.
Proof.
  induction s as [|a s IH]; simpl; [discriminate|].
  destruct (isWhiteSpace a) eqn:E; [exact IH|]. now intros [= <- _].
Qed.

Lemma trimStart_fixed s :
  (forall c r, s = String c r -> isWhiteSpace c = false) -> trimStart s = s.
Proof.
  destruct s as [|a s]; [reflexivity|]. intros H. simpl.
  now rewrite (H a s eq_refl).
Qed.

Lemma trimEnd_head s c r : trimEnd s = String c r -> exists r0, s = String c r0.
Proof.
  destruct s as [|a s]; simpl; [discriminate|].
  destruct (trimEnd s); [destruct (isWhiteSpace a); [discriminate|]|];
    intros [= <- _]; eauto.
Qed.

Lemma trimEnd_idem s : trimEnd (trimEnd s) = trimEnd s.
Proof.
  induction s as [|a s IH]; [reflexivity|]. simpl.
  destruct (trimEnd s) as [|b t] eqn:E.
  - destruct (isWhiteSpace a) eqn:Ea; [reflexivity|]. simpl. now rewrite Ea.
  - cbn [trimEnd] in *. rewrite IH. reflexivity.
Qed.

Lemma trim_idem s : trim (trim s) = trim s.
Proof.
  unfold trim. rewrite (trimStart_fixed (trimEnd (trimStart s))).
  - apply trimEnd_idem.
  - intros c r H. apply trimEnd_head in H as [r0 H].
    now apply trimStart_head in H.
Qed.

Lemma trim_trimmed s :
  truthy (trim s) = true -> CartCheckout.trimmed (trim s).
Proof.
  intros H. split; [|apply trim_idem].
  intros E. rewrite E in H. discriminate.
Qed.

End TrimFacts.

(* ------------------------------------------------------------------ *)
(** ** The page as a whole *)

Section PageFacts.

Import JsString CartCheckout Store.

Lemma updateQuantity_present k q s l1 x l2 :
  CartStore.cart_inv (CartStore.items s) ->
  CartStore.items s = l1 ++ x :: l2 -> id (CartStore.product x) = k ->
  CartStore.items (CartStore.updateQuantity k q s)
  = l1 ++ (if 0 <? q
           then [{| CartStore.product := CartStore.product x;
                    CartStore.quantity := q |}]
           else []) ++ l2.
Proof.
  intros [Hn Hq] Hs Hk. rewrite Hs in Hn, Hq.
  destruct (NoDup_ids_split _ _ _ Hn) as [H1 H2]. rewrite Hk in H1, H2.
  apply Forall_app in Hq as [Hq1 Hq2]. apply Forall_cons_iff in Hq2 as [_ Hq2].
  rewrite updateQuantity_items, Hs, (map_bump_split k _ l1 x l2 Hk H1 H2), filter_app.
  cbn [filter CartStore.with_quantity CartStore.quantity].
  rewrite (filter_positive _ Hq1), (filter_positive _ Hq2).
  destruct (0 <? q); reflexivity.
Qed.

(** X3. The three buttons of a cart row, in a cart that satisfies the
    invariant: minus takes one piece off but never goes below one, so it
    never removes the row; plus adds one piece; the bin removes that row
    and no other. The other rows and the order stay as they are. *)
Theorem rowClick_spec (s : CartStore.CartState) (n : nat) (item : CartStore.CartItem) :
  CartStore.cart_inv (CartStore.items s) ->
  nth_error (CartStore.items s) n = Some item ->
  exists l1 l2,
    CartStore.items s = l1 ++ item :: l2 /\ List.length l1 = n
    /\ CartStore.items (rowClick item Minus s)
       = l1 ++ {| CartStore.product := CartStore.product item;
                  CartStore.quantity := Z.max 1 (CartStore.quantity item - 1) |} :: l2
    /\ CartStore.items (rowClick item Plus s)
       = l1 ++ {| CartStore.product := CartStore.product item;
                  CartStore.quantity := CartStore.quantity item + 1 |} :: l2
    /\ CartStore.items (rowClick item Remove s) = l1 ++ l2.
Proof.
  intros Hinv Hn. destruct (nth_error_split _ _ Hn) as [l1 [l2 [Hs Hl]]].
  exists l1, l2. split; [exact Hs|]. split; [exact Hl|].
  assert (Hq : 1 <= CartStore.quantity item).
  { destruct Hinv as [_ Hq]. rewrite Hs in Hq.
    apply Forall_app in Hq as [_ Hq]. now apply Forall_cons_iff in Hq as [Hq _]. }
  unfold rowClick. rewrite !(updateQuantity_present _ _ s l1 item l2 Hinv Hs eq_refl).
  replace (0 <? Z.max 1 (CartStore.quantity item - 1)) with true
    by (symmetry; apply Z.ltb_lt; lia).
  replace (0 <? CartStore.quantity item + 1) with true
    by (symmetry; apply Z.ltb_lt; lia).
  repeat split.
Qed.

Lemma rowClick_spec_witness :
  exists l1 l2,
    CartStore.items Samples.cart
    = l1 ++ {| CartStore.product := Samples.gown; CartStore.quantity := 1 |} :: l2
    /\ List.length l1 = 1%nat
    /\ CartStore.items
         (rowClick {| CartStore.product := Samples.gown; CartStore.quantity := 1 |}
            Minus Samples.cart)
       = l1 ++ {| CartStore.product := Samples.gown; CartStore.quantity := 1 |} :: l2
    /\ CartStore.items
         (rowClick {| CartStore.product := Samples.gown; CartStore.quantity := 1 |}
            Plus Samples.cart)
       = l1 ++ {| CartStore.product := Samples.gown; CartStore.quantity := 2 |} :: l2
    /\ CartStore.items
         (rowClick {| CartStore.product := Samples.gown; CartStore.quantity := 1 |}
            Remove Samples.cart)
       = l1 ++ l2.
Proof.
  exact (rowClick_spec Samples.cart 1
           {| CartStore.product := Samples.gown; CartStore.quantity := 1 |}
           sample_cart_inv eq_refl).
Defined.

(** What a control of the page can do to the cart store. *)
Lemma handle_store e pg pg' :
  handle e pg = Some pg' ->
  store (world pg') = store (world pg)
  \/ (exists p, store (world pg') = handleAddToCart p (store (world pg)))
  \/ (exists b, store (world pg') = CartStore.toggleCheckout b (store (world pg)))
  \/ (exists k q, store (world pg') = CartStore.updateQuantity k q (store (world pg))).
Proof.
  intros Hh. destruct e.
  - injection Hh as <-. right. left. now exists p.
  - injection Hh as <-. right. right. left. now exists true.
  - unfold handle in Hh. destruct (CartStore.checkoutOpen _); [|discriminate].
    injection Hh as <-. right. right. left. now exists false.
  - unfold handle in Hh. destruct (CartStore.checkoutOpen _); [|discriminate].
    destruct (nth_error _ n) as [item|]; [|discriminate]. injection Hh as <-.
    right. right. right. destruct b; simpl; eauto.
  - unfold handle in Hh. destruct (editable pg); [|discriminate].
    injection Hh as <-. now left.
  - unfold handle in Hh. destruct (editable pg); [|discriminate].
    injection Hh as <-. now left.
  - unfold handle in Hh. destruct (editable pg); [|discriminate].
    injection Hh as <-. now left.
  - unfold handle in Hh. destruct (editable pg && _); [|discriminate].
    injection Hh as <-. now left.
  - apply handle_Submit_inv in Hh as [-> _]. left. apply begin_store.
  - apply handle_Settle_inv in Hh as [c [_ [-> _]]]. left. apply resume_store_wired.
Qed.

Lemma reachable_page_cart_inv pg :
  reachable pg -> CartStore.cart_inv (CartStore.items (store (world pg))).
Proof.
  induction 1 as [|e pg pg' _ IH Hh].
  - split; constructor.
  - destruct (handle_store e pg pg' Hh) as [-> | [[p ->] | [[b ->] | [k [q ->]]]]].
    + exact IH.
    + apply (addItem_inv p _ IH).
    + exact IH.
    + now apply updateQuantity_inv.
Qed.

(** X4. On no page reached from the loaded one is there a confirmation
    message to render: the store's [confirmationMessage] is [null] from
    the start, and no control of the page, a fulfilled order included,
    ever sets it to a text. *)
Theorem page_never_confirms (pg : Page) :
  reachable pg ->
  CartStore.confirmationMessage (store (world pg)) = None.
Proof.
  induction 1 as [|e pg pg' _ IH Hh].
  - reflexivity.
  - destruct (handle_store e pg pg' Hh) as [-> | [[p ->] | [[b ->] | [k [q ->]]]]].
    + exact IH.
    + reflexivity.
    + exact IH.
    + exact IH.
Qed.

Lemma page_never_confirms_witness :
  exists pg,
    run [AddToCart Samples.jacket; ChangeFullName "Ada"; ChangePhone "555 0100";
         ChangeAddress "12 Mill Lane"; Submit; Settle Axios.Fulfilled; CloseCart;
         OpenCart] loaded = Some pg
    /\ CartStore.confirmationMessage (store (world pg)) = None.
Proof.
  eexists. split; [reflexivity|].
  apply page_never_confirms.
  apply (run_reachable
           [AddToCart Samples.jacket; ChangeFullName "Ada"; ChangePhone "555 0100";
            ChangeAddress "12 Mill Lane"; Submit; Settle Axios.Fulfilled; CloseCart;
            OpenCart] loaded);
    [apply reachable_loaded | reflexivity].
Defined.

Lemma begin_cases w :
  (missing (form w) = true
   /\ fst (handleSubmit_begin w) = None
   /\ submitting (form (snd (handleSubmit_begin w))) = submitting (form w)
   /\ effects (snd (handleSubmit_begin w)) = effects w)
  \/ (missing (form w) = false
      /\ fst (handleSubmit_begin w)
         = Some {| seen := form w; seenItems := CartStore.items (store w) |}
      /\ submitting (form (snd (handleSubmit_begin w))) = true
      /\ effects (snd (handleSubmit_begin w))
         = effects w
           ++ [Post orders_url (body_of (form w) (CartStore.items (store w)))]).
Proof.
  destruct (missing (form w)) eqn:E.
  - left. rewrite handleSubmit_begin_missing by exact E. now repeat split.
  - right. rewrite handleSubmit_begin_complete by exact E. now repeat split.
Qed.

Lemma editable_submitting pg :
  editable pg = true -> submitting (form (world pg)) = false.
Proof.
  unfold editable. intros H. apply andb_true_iff in H as [_ H].
  now apply negb_true_iff in H.
Qed.

Lemma locked_not_editable pg :
  submitting (form (world pg)) = true -> editable pg = false.
Proof. unfold editable. intros ->. apply andb_false_r. Qed.

(** The request is out exactly while the form says "Submitting...". *)
Lemma reachable_pending pg :
  reachable pg ->
  (pending pg = None /\ submitting (form (world pg)) = false)
  \/ ((exists c, pending pg = Some c) /\ submitting (form (world pg)) = true).
Proof.
  induction 1 as [|e pg pg' _ IH Hh].
  - left. now split.
  - destruct e.
    + injection Hh as <-. exact IH.
    + injection Hh as <-. exact IH.
    + unfold handle in Hh. destruct (CartStore.checkoutOpen _); [|discriminate].
      injection Hh as <-. exact IH.
    + unfold handle in Hh. destruct (CartStore.checkoutOpen _); [|discriminate].
      destruct (nth_error _ n); [|discriminate]. injection Hh as <-. exact IH.
    + unfold handle in Hh. destruct (editable pg); [|discriminate].
      injection Hh as <-. exact IH.
    + unfold handle in Hh. destruct (editable pg); [|discriminate].
      injection Hh as <-. exact IH.
    + unfold handle in Hh. destruct (editable pg); [|discriminate].
      injection Hh as <-. exact IH.
    + unfold handle in Hh. destruct (editable pg && _); [|discriminate].
      injection Hh as <-. exact IH.
    + assert (He : editable pg = true).
      { unfold handle in Hh. destruct (editable pg); [reflexivity|discriminate]. }
      apply editable_submitting in He.
      apply handle_Submit_inv in Hh as [Hw Hp]. rewrite Hw, Hp.
      destruct (begin_cases (world pg)) as [[_ [-> [-> _]]] | [_ [-> [-> _]]]].
      * left. now split.
      * right. split; [eauto | reflexivity].
    + apply handle_Settle_inv in Hh as [c [_ [-> ->]]]. left. split; [reflexivity|].
      destruct reply; reflexivity.
Qed.

(** X5. On every page reached from the loaded one, an order request is
    waiting for its reply exactly when the form is marked as submitting;
    and while it waits, the submit button and the four inputs are
    disabled, so that no second request can go out and the typed details
    cannot change before the reply is in. *)
Theorem submission_lock (pg : Page) :
  reachable pg ->
  (pending pg <> None <-> submitting (form (world pg)) = true)
  /\ (pending pg <> None ->
      handle Submit pg = None
      /\ forall v,
           handle (ChangeFullName v) pg = None /\ handle (ChangePhone v) pg = None
           /\ handle (ChangeAddress v) pg = None /\ handle (ChangeSize v) pg = None).
Proof.
  intros Hr.
  assert (Hiff : pending pg <> None <-> submitting (form (world pg)) = true).
  { destruct (reachable_pending pg Hr) as [[Hp Hs] | [[c Hp] Hs]];
      rewrite Hp, Hs; split; congruence. }
  split; [exact Hiff|]. intros Hp. apply Hiff in Hp.
  apply locked_not_editable in Hp. unfold handle. rewrite Hp. simpl. auto.
Qed.

Lemma submission_lock_witness :
  exists pg,
    run [AddToCart Samples.jacket; ChangeFullName "Ada"; ChangePhone "555 0100";
         ChangeAddress "12 Mill Lane"; Submit] loaded = Some pg
    /\ pending pg <> None
    /\ handle Submit pg = None.
Proof.
  eexists. split; [reflexivity|]. split; [discriminate|].
  refine (proj1 (proj2 (submission_lock _ _) _)); [|discriminate].
  apply (run_reachable
           [AddToCart Samples.jacket; ChangeFullName "Ada"; ChangePhone "555 0100";
            ChangeAddress "12 Mill Lane"; Submit] loaded);
    [apply reachable_loaded | reflexivity].
Defined.

Lemma posts_app w e :
  flat_map (fun e => match e with Post _ b => [b] | _ => [] end) (effects w ++ [e])
  = posts w ++ match e with Post _ b => [b] | _ => [] end.
Proof. unfold posts. rewrite flat_map_app. simpl. now rewrite app_nil_r. Qed.

(** What a control of the page can add to the requests sent. *)
Lemma handle_posts e pg pg' :
  handle e pg = Some pg' ->
  posts (world pg') = posts (world pg)
  \/ (missing (form (world pg)) = false
      /\ hasItems (world pg) = true
      /\ posts (world pg')
         = posts (world pg)
           ++ [body_of (form (world pg)) (CartStore.items (store (world pg)))]).
Proof.
  intros Hh. destruct e.
  - injection Hh as <-. now left.
  - injection Hh as <-. now left.
  - unfold handle in Hh. destruct (CartStore.checkoutOpen _); [|discriminate].
    injection Hh as <-. now left.
  - unfold handle in Hh. destruct (CartStore.checkoutOpen _); [|discriminate].
    destruct (nth_error _ n); [|discriminate]. injection Hh as <-. now left.
  - unfold handle in Hh. destruct (editable pg); [|discriminate].
    injection Hh as <-. now left.
  - unfold handle in Hh. destruct (editable pg); [|discriminate].
    injection Hh as <-. now left.
  - unfold handle in Hh. destruct (editable pg); [|discriminate].
    injection Hh as <-. now left.
  - unfold handle in Hh. destruct (editable pg && _); [|discriminate].
    injection Hh as <-. now left.
  - assert (Hi : hasItems (world pg) = true).
    { unfold handle in Hh. destruct (editable pg); [|discriminate].
      destruct (hasItems (world pg)); [reflexivity|discriminate]. }
    apply handle_Submit_inv in Hh as [Hw _]. rewrite Hw.
    destruct (begin_cases (world pg)) as [[_ [_ [_ He]]] | [Hm [_ [_ He]]]].
    + left. unfold posts. now rewrite He.
    + right. split; [exact Hm|]. split; [exact Hi|].
      unfold posts at 1. rewrite He. apply posts_app.
  - apply handle_Settle_inv in Hh as [c [_ [-> _]]]. left. destruct reply.
    + rewrite handleSubmit_resume_fulfilled. unfold posts at 1. cbn [effects].
      rewrite posts_app. apply app_nil_r.
    + rewrite handleSubmit_resume_thrown. unfold posts at 1. cbn [effects].
      rewrite posts_app. apply app_nil_r.
Qed.

Lemma body_of_wellFormed f items :
  missing f = false -> In (size f) sizes ->
  CartStore.cart_inv items -> items <> [] ->
  wellFormed (body_of f items).
Proof.
  intros Hm Hs [Hn Hq] Hne. unfold missing in Hm.
  apply orb_false_iff in Hm as [Hm _]. apply orb_false_iff in Hm as [Hm Ha].
  apply orb_false_iff in Hm as [Hf Hp].
  apply negb_false_iff in Hf, Hp, Ha.
  unfold wellFormed, body_of. cbn.
  split; [now apply trim_trimmed|]. split; [now apply trim_trimmed|].
  split; [now apply trim_trimmed|]. split; [exact Hs|]. split; [|split].
  - destruct items; [contradiction | discriminate].
  - rewrite map_map. exact Hn.
  - apply Forall_map. exact Hq.
Qed.

(** X6. Every order request that a page reached from the loaded one has
    sent is one a backend can fill: the name, the phone number and the
    address are not empty and carry no white space around them, the size
    is one of the five listed, and there is at least one line, at most
    one line per product, and one piece or more on every line. *)
Theorem posts_wellFormed (pg : Page) :
  reachable pg -> Forall wellFormed (posts (world pg)).
Proof.
  intros Hr.
  induction Hr as [|e pg pg' Hr IH Hh].
  - constructor.
  - destruct (handle_posts e pg pg' Hh) as [-> | [Hm [Hi ->]]]; [exact IH|].
    apply Forall_app. split; [exact IH|]. constructor; [|constructor].
    apply body_of_wellFormed.
    + exact Hm.
    + now apply (size_listed pg).
    + now apply reachable_page_cart_inv.
    + unfold hasItems in Hi. intros E. rewrite E in Hi. discriminate.
Qed.

Lemma posts_wellFormed_witness :
  exists pg,
    run [AddToCart Samples.jacket; AddToCart Samples.gown; Row 0 Plus;
         ChangeFullName "  Ada Lovelace "; ChangePhone "555 0100";
         ChangeAddress "12 Mill Lane"; ChangeSize "S"; Submit] loaded = Some pg
    /\ posts (world pg)
       = [ {| OrderBody.fullName := "Ada Lovelace"; OrderBody.phone := "555 0100";
              OrderBody.address := "12 Mill Lane"; OrderBody.size := "S";
              OrderBody.items :=
                [ {| OrderBody.productId := "p1"; OrderBody.quantity := 2 |};
                  {| OrderBody.productId := "p2"; OrderBody.quantity := 1 |} ] |} ]
    /\ Forall wellFormed (posts (world pg)).
Proof.
  eexists. split; [reflexivity|]. split; [reflexivity|].
  apply posts_wellFormed.
  apply (run_reachable
           [AddToCart Samples.jacket; AddToCart Samples.gown; Row 0 Plus;
            ChangeFullName "  Ada Lovelace "; ChangePhone "555 0100";
            ChangeAddress "12 Mill Lane"; ChangeSize "S"; Submit] loaded);
    [apply reachable_loaded | reflexivity].
Defined.

End PageFacts.
